(** * Baystation12/monitor: the Monitor control surface (main.go)

    A shallow embedding of the six request handlers of [main.go]
    ([Start], [Stop], [Update], [RestoreSave], [Commit], [IsRunning]),
    of the response envelope they render, and of the parts of the Go
    libraries they call ([strings], [encoding/hex], [os/exec], go-git,
    go-docker).

    Go strings are byte sequences, and so are Rocq's [string]s (a list
    of 8-bit [ascii]); no encoding is assumed anywhere. *)

From Stdlib Require Import NArith Ascii String.
From stdpp Require Import base option list strings gmap.

Open Scope string_scope.

(** ** Package [strings] (Go standard library) *)

Module Strings.

(** [utf8.RuneSelf]: bytes below it are single-byte runes. *)
Definition RuneSelf : N := 128.

Definition byte_val (c : ascii) : N := Ascii.N_of_ascii c.

(** [ToLower], the loop body of its ASCII path:
    [if 'A' <= c && c <= 'Z' { c += 'a' - 'A' }]. *)
Definition lower_byte (c : ascii) : ascii :=
  if ((65 <=? byte_val c) && (byte_val c <=? 90))%N
  then Ascii.ascii_of_N (byte_val c + 32)
  else c.

(** The first loop of [ToLower]: is every byte below [RuneSelf]? *)
Fixpoint isASCII (s : string) : bool :=
  match s with
  | EmptyString => true
  | String c s' => (byte_val c <? RuneSelf)%N && isASCII s'
  end.

Fixpoint map_bytes (f : ascii -> ascii) (s : string) : string :=
  match s with
  | EmptyString => EmptyString
  | String c s' => String (f c) (map_bytes f s')
  end.

(** [strings.ToLower(s)].  An all-ASCII string is lowered byte by byte
    (when it has no upper-case letter Go returns [s] itself, which is
    the same string); any other string goes to
    [Map(unicode.ToLower, s)], which depends on the Unicode tables and
    is the parameter [unicode_lower]. *)
Definition ToLower (unicode_lower : string -> string) (s : string) : string :=
  if isASCII s then map_bytes lower_byte s else unicode_lower s.

(** [asciiSpace]: the six bytes ['\t', '\n', '\v', '\f', '\r', ' ']. *)
Definition asciiSpace (c : ascii) : bool :=
  let n := byte_val c in
  ((n =? 9) || (n =? 10) || (n =? 11) || (n =? 12) || (n =? 13) || (n =? 32))%N.

(** One scanning loop of [TrimSpace].  Both of its loops do the same
    on the bytes they meet: stop with a fall-back request at a byte
    [>= RuneSelf], stop at an ASCII byte that is no space, go on
    otherwise.  The result is (fall back?, what is left). *)
Fixpoint scan_space (s : string) : bool * string :=
  match s with
  | EmptyString => (false, EmptyString)
  | String c s' =>
      if (RuneSelf <=? byte_val c)%N then (true, s)
      else if asciiSpace c then scan_space s'
      else (false, s)
  end.

(** [strings.TrimSpace(s)]: the first loop scans from the left, the
    second scans [s[start:]] from the right; either one hands what is
    left to [TrimFunc(_, unicode.IsSpace)] (the parameter
    [unicode_trim]) when it meets a byte that is not ASCII. *)
Definition TrimSpace (unicode_trim : string -> string) (s : string) : string :=
  let '(fallback, s1) := scan_space s in
  if fallback then unicode_trim s1
  else
    let '(fallback2, r) := scan_space (String.rev s1) in
    if fallback2 then unicode_trim (String.rev r) else String.rev r.

(** [s[len(sep):]] when [s] starts with [sep] ([HasPrefix]). *)
Fixpoint after_prefix (sep s : string) : option string :=
  match sep, s with
  | EmptyString, _ => Some s
  | String a sep', String b s' =>
      if Ascii.eqb a b then after_prefix sep' s' else None
  | String _ _, EmptyString => None
  end.

(** [m := Index(s, sep)] together with the two pieces [genSplit] cuts
    there: [s[:m]] and [s[m+len(sep):]]; [None] when [m < 0]. *)
Fixpoint cut (sep s : string) : option (string * string) :=
  match after_prefix sep s with
  | Some rest => Some (EmptyString, rest)
  | None =>
      match s with
      | EmptyString => None
      | String c s' =>
          match cut sep s' with
          | Some (a, b) => Some (String c a, b)
          | None => None
          end
      end
  end.

(** The loop of [genSplit(s, sep, 0, n)], with [k = n - 1 - i] rounds
    left: [for i < n-1 { m := Index(s, sep); if m < 0 { break }; ... }],
    then [a[i] = s]. *)
Fixpoint genSplit (s sep : string) (k : nat) : list string :=
  match k with
  | O => [s]
  | S k' =>
      match cut sep s with
      | None => [s]
      | Some (a, rest) => a :: genSplit rest sep k'
      end
  end.

(** [strings.SplitN(s, sep, n)] for a non-empty [sep] and [n >= 0]
    (the only way the monitor calls it: [sep = "\n"], [n = 2]);
    [n == 0] gives [nil]. *)
Definition SplitN (s sep : string) (n : nat) : list string :=
  match n with
  | O => []
  | S k => genSplit s sep k
  end.

End Strings.

Definition LF : string := String (Ascii.ascii_of_N 10) EmptyString.

(** ** Package [encoding/hex] (Go standard library) *)

Module Hex.

Definition hextable : string := "0123456789abcdef".

(** [hextable[n]]; every index the encoder computes is below 16. *)
Definition digit (n : N) : ascii :=
  match String.get (N.to_nat n) hextable with
  | Some c => c
  | None => Ascii.zero
  end.

(** [hex.EncodeToString(src)]:
    [dst[j] = hextable[v>>4]; dst[j+1] = hextable[v&0x0f]]. *)
Fixpoint EncodeToString (src : list Byte.byte) : string :=
  match src with
  | [] => EmptyString
  | v :: src' =>
      String (digit (N.shiftr (Byte.to_N v) 4))
        (String (digit (N.land (Byte.to_N v) 15)) (EncodeToString src'))
  end.

End Hex.

(** ** The data of [main.go] *)

Record Config := {
  Password : string;
  StartScript : string;
  StopScript : string;
  UpdateScript : string;
  RestoreSaveScript : string;
  GitDir : string;
  PidFile : string;
  Container : string
}.

(** The values the monitor stores in [Message interface{}]: a string,
    a [bool], or the [map[string]string] of the commit handler. *)
Inductive any : Type :=
| VString (s : string)
| VBool (b : bool)
| VStringMap (m : gmap string string).

Record Response := {
  Success : bool;
  Message : any
}.

Definition NewResponse (success : bool) (message : any) : Response :=
  {| Success := success; Message := message |}.

(** Go's [error] interface; [%v] prints a non-nil error by its
    [Error()] text, which is all the monitor observes of it.  A nil
    error is [None]. *)
Record error := { Error : string }.

(** [http.Request]: the parsed form. *)
Record Request := {
  Form : gmap string (list string)
}.

(** [r.FormValue(key)]: the first value of the key, or the empty string. *)
Definition FormValue (r : Request) (key : string) : string :=
  match Form r !! key with
  | Some (v :: _) => v
  | _ => EmptyString
  end.

(** go-git: [plumbing.Hash] is [[20]byte]. *)
Module Plumbing.

Record Hash := {
  bytes : list Byte.byte;
  size : length bytes = 20
}.

(** [func (h Hash) String() string { return hex.EncodeToString(h[:]) }] *)
Definition String_ (h : Hash) : string := Hex.EncodeToString (bytes h).

(** [plumbing.Reference]; [Hash()] returns its target. *)
Record Reference := {
  Name : string;
  Target : Hash
}.

End Plumbing.

(** go-git: [object.Commit], with a type [Time] for [time.Time]. *)
Module Object.

Record Signature (Time : Type) := {
  Name : string;
  Email : string;
  When : Time
}.

Record Commit (Time : Type) := {
  Hash : Plumbing.Hash;
  Author : Signature Time;
  Committer : Signature Time;
  Message : string
}.

Arguments Name {Time} _.
Arguments Email {Time} _.
Arguments When {Time} _.
Arguments Hash {Time} _.
Arguments Author {Time} _.
Arguments Committer {Time} _.
Arguments Message {Time} _.

End Object.

(** go-docker: the part of [types.ContainerJSON] the monitor reads.
    [ContainerJSON] embeds a [*ContainerJSONBase], whose field [State]
    is a [*ContainerState]; a nil pointer is [None]. *)
Module Types.

Record ContainerState := {
  Status : string;
  Running : bool
}.

Record ContainerJSONBase := {
  ID : string;
  State : option ContainerState
}.

Record ContainerJSON := {
  Base : option ContainerJSONBase
}.

End Types.

(** ** Package [os/exec]: a command as [exec.Command(name, arg...)] built it *)

Record Cmd := {
  name : string;
  arg : list string
}.

Definition Command (name : string) (arg : list string) : Cmd :=
  {| name := name; arg := arg |}.

(** The calls a handler makes to its collaborators, in order. *)
Inductive Call : Type :=
| CallRun (c : Cmd)
| CallCombinedOutput (c : Cmd)
| CallPlainOpen (path : string)
| CallHead
| CallCommitObject (h : Plumbing.Hash)
| CallContainerInspect (container : string).

(** What became of a handler: it ran to its end, or it panicked (the
    router's [middleware.Recoverer] then answers in its place). *)
Inductive outcome (A : Type) : Type :=
| Returned (a : A)
| Panicked (reason : string).
Arguments Returned {A} a.
Arguments Panicked {A} reason.

Definition IsReturned {A} (o : outcome A) : bool :=
  match o with Returned _ => true | Panicked _ => false end.

(** The text of Go's panic on reading through a nil pointer. *)
Definition nil_dereference : string :=
  "runtime error: invalid memory address or nil pointer dereference".

(** ** The monitor over a host

    [World] is the state of the machine outside the process (files,
    repository, containers); [Repository] is go-git's repository
    handle and [Time] is [time.Time]. *)

Section Monitor.

Variables World Repository Time : Type.

(** The collaborators.  Running a script may change the world; the
    repository and container queries read it.  The last three fields
    are the Unicode paths of package [strings]:
    [Map(unicode.ToLower, s)], [TrimFunc(s, unicode.IsSpace)], and
    the fact that the former drops no character ([unicode.ToLower]
    never returns a negative rune). *)
Record Host := {
  exec_Run : Cmd -> World -> option error * World;
  exec_CombinedOutput : Cmd -> World -> string * option error * World;
  git_PlainOpen : string -> World -> Repository + error;
  git_Head : Repository -> World -> Plumbing.Reference + error;
  git_CommitObject : Repository -> Plumbing.Hash -> World -> Object.Commit Time + error;
  docker_ContainerInspect : string -> World -> Types.ContainerJSON + error;
  time_Format : Time -> string -> string;
  unicode_lower : string -> string;
  unicode_trim : string -> string;
  unicode_lower_nonempty : forall s, s <> EmptyString -> unicode_lower s <> EmptyString
}.

(** What a handler sees and leaves behind: the world, the calls made
    so far, and the envelopes [render.Render] wrote to the
    [http.ResponseWriter]. *)
Record State := {
  world : World;
  calls : list Call;
  rendered : list Response
}.

Definition start_state (w : World) : State :=
  {| world := w; calls := []; rendered := [] |}.

Definition M (A : Type) : Type := State -> outcome A * State.

#[local] Instance M_ret : MRet M := fun A a st => (Returned a, st).

#[local] Instance M_bind : MBind M := fun A B f m st =>
  match m st with
  | (Returned a, st') => f a st'
  | (Panicked reason, st') => (Panicked reason, st')
  end.

Definition panic {A} (reason : string) : M A := fun st => (Panicked reason, st).

Definition logged (c : Call) (st : State) (w : World) : State :=
  {| world := w; calls := calls st ++ [c]; rendered := rendered st |}.

Variable host : Host.

(** [cmd.Run()] *)
Definition Run (cmd : Cmd) : M (option error) := fun st =>
  let '(err, w) := exec_Run host cmd (world st) in
  (Returned err, logged (CallRun cmd) st w).

(** [cmd.CombinedOutput()] *)
Definition CombinedOutput (cmd : Cmd) : M (string * option error) := fun st =>
  let '(out, err, w) := exec_CombinedOutput host cmd (world st) in
  (Returned (out, err), logged (CallCombinedOutput cmd) st w).

(** [git.PlainOpen(path)] *)
Definition PlainOpen (path : string) : M (Repository + error) := fun st =>
  (Returned (git_PlainOpen host path (world st)), logged (CallPlainOpen path) st (world st)).

(** [repo.Head()] *)
Definition Head (repo : Repository) : M (Plumbing.Reference + error) := fun st =>
  (Returned (git_Head host repo (world st)), logged CallHead st (world st)).

(** [repo.CommitObject(h)] *)
Definition CommitObject (repo : Repository) (h : Plumbing.Hash)
  : M (Object.Commit Time + error) := fun st =>
  (Returned (git_CommitObject host repo h (world st)),
   logged (CallCommitObject h) st (world st)).

(** [m.Docker.ContainerInspect(context.Background(), container)] *)
Definition ContainerInspect (container : string)
  : M (Types.ContainerJSON + error) := fun st =>
  (Returned (docker_ContainerInspect host container (world st)),
   logged (CallContainerInspect container) st (world st)).

(** [render.Render(w, r, v)] *)
Definition Render (v : Response) : M unit := fun st =>
  (Returned tt,
   {| world := world st; calls := calls st; rendered := rendered st ++ [v] |}).

(** Reading through a pointer: a nil pointer panics. *)
Definition deref {A} (p : option A) : M A :=
  match p with
  | Some x => mret x
  | None => panic nil_dereference
  end.

(** [a[i]]: an index out of range panics. *)
Definition index {A} (a : list A) (i : nat) : M A :=
  match a !! i with
  | Some x => mret x
  | None => panic "runtime error: index out of range"
  end.

(** [Monitor]; its [Docker] client is the host's
    [docker_ContainerInspect]. *)
Record Monitor := {
  Conf : Config
}.

Definition Start (m : Monitor) : M unit :=
  let cmd := Command (StartScript (Conf m)) [] in
  let success := true in
  let message := "Server has been started" in
  err ← Run cmd;
  let '(success, message) :=
    match err with
    | Some err => (false, "Server failed to start (" ++ Error err ++ ")")
    | None => (success, message)
    end in
  Render (NewResponse success (VString message)).

Definition Stop (m : Monitor) : M unit :=
  let cmd := Command (StopScript (Conf m)) [] in
  let success := true in
  let message := "Server has been stopped" in
  err ← Run cmd;
  let '(success, message) :=
    match err with
    | Some err => (false, "Server failed to stop (" ++ Error err ++ ")")
    | None => (success, message)
    end in
  Render (NewResponse success (VString message)).

Definition Update (m : Monitor) : M unit :=
  let cmd := Command (UpdateScript (Conf m)) [] in
  let success := true in
  let message := "Server has been updated" in
  err ← Run cmd;
  let '(success, message) :=
    match err with
    | Some err => (false, "Server failed to update (" ++ Error err ++ ")")
    | None => (success, message)
    end in
  Render (NewResponse success (VString message)).

Definition RestoreSave (m : Monitor) (r : Request) : M unit :=
  let ckey := Strings.ToLower (unicode_lower host) (FormValue r "ckey") in
  let date := FormValue r "date" in
  if String.eqb ckey EmptyString || String.eqb date EmptyString then
    Render (NewResponse false (VString "Invalid request"))
  else
    let cmd := Command (RestoreSaveScript (Conf m)) [ckey; date] in
    let success := true in
    '(bmessage, err) ← CombinedOutput cmd;
    let message := bmessage in
    let '(success, message) :=
      match err with
      | Some err =>
          (false, "Script failed to run: " ++ Error err ++ LF ++ LF ++ message)
      | None => (success, message)
      end in
    Render (NewResponse success (VString message)).

(** The function literal of [Commit]. *)
Definition Commit_body (m : Monitor) : M (bool * any) :=
  repo ← PlainOpen (GitDir (Conf m));
  match repo with
  | inr err => mret (false, VString ("Failed to open git repo (" ++ Error err ++ ")"))
  | inl repo =>
      head ← Head repo;
      match head with
      | inr err => mret (false, VString ("Failed to get HEAD ref (" ++ Error err ++ ")"))
      | inl head =>
          commit ← CommitObject repo (Plumbing.Target head);
          match commit with
          | inr err =>
              mret (false, VString ("Failed to get HEAD commit (" ++ Error err ++ ")"))
          | inl commit =>
              summary ← index (Strings.SplitN
                                 (Strings.TrimSpace (unicode_trim host) (Object.Message commit))
                                 LF 2) 0;
              mret (true, VStringMap {[
                "message" := summary;
                "date" := time_Format host (Object.When (Object.Committer commit))
                            "Mon Jan 02 15:04:05 2006 -0700";
                "sha" := Plumbing.String_ (Object.Hash commit)
              ]})
          end
      end
  end.

Definition Commit (m : Monitor) : M unit :=
  '(success, message) ← Commit_body m;
  Render (NewResponse success message).

Definition IsRunning (m : Monitor) : M unit :=
  let running := true in
  inspected ← ContainerInspect (Container (Conf m));
  running ←
    match inspected with
    | inr err => mret false
    | inl info =>
        base ← deref (Types.Base info);
        state ← deref (Types.State base);
        mret (if Bool.eqb (Types.Running state) false then false else running)
    end;
  Render (NewResponse true (VBool running)).

End Monitor.

Arguments exec_Run {World Repository Time} h _ _.
Arguments exec_CombinedOutput {World Repository Time} h _ _.
Arguments git_PlainOpen {World Repository Time} h _ _.
Arguments git_Head {World Repository Time} h _ _.
Arguments git_CommitObject {World Repository Time} h _ _ _.
Arguments docker_ContainerInspect {World Repository Time} h _ _.
Arguments time_Format {World Repository Time} h _ _.
Arguments unicode_lower {World Repository Time} h _.
Arguments unicode_trim {World Repository Time} h _.
Arguments unicode_lower_nonempty {World Repository Time} h s _.
Arguments start_state {World} w.
Arguments world {World} s.
Arguments calls {World} s.
Arguments rendered {World} s.
Arguments Build_State {World} world calls rendered.
Arguments Start {World Repository Time} host m _.
Arguments Stop {World Repository Time} host m _.
Arguments Update {World Repository Time} host m _.
Arguments RestoreSave {World Repository Time} host m r _.
Arguments Commit_body {World Repository Time} host m _.
Arguments Commit {World Repository Time} host m _.
Arguments IsRunning {World Repository Time} host m _.

(** ** The vocabulary of the specification *)

(** The three script operations that capture no output. *)
Inductive lifecycle : Type := DoStart | DoStop | DoUpdate.

Definition lifecycle_script (a : lifecycle) (c : Config) : string :=
  match a with
  | DoStart => StartScript c
  | DoStop => StopScript c
  | DoUpdate => UpdateScript c
  end.

Definition lifecycle_handler {World Repository Time}
    (a : lifecycle) (host : Host World Repository Time) (m : Monitor)
  : M World unit :=
  match a with
  | DoStart => Start host m
  | DoStop => Stop host m
  | DoUpdate => Update host m
  end.

(** The fixed message of a successful script operation. *)
Definition lifecycle_done (a : lifecycle) : string :=
  match a with
  | DoStart => "Server has been started"
  | DoStop => "Server has been stopped"
  | DoUpdate => "Server has been updated"
  end.

Definition lifecycle_verb (a : lifecycle) : string :=
  match a with
  | DoStart => "start"
  | DoStop => "stop"
  | DoUpdate => "update"
  end.

(** Every operation of the control surface. *)
Inductive operation : Type :=
| OpStart
| OpStop
| OpUpdate
| OpRestoreSave (r : Request)
| OpCommit
| OpIsRunning.

Definition handle {World Repository Time}
    (host : Host World Repository Time) (m : Monitor) (op : operation)
  : M World unit :=
  match op with
  | OpStart => Start host m
  | OpStop => Stop host m
  | OpUpdate => Update host m
  | OpRestoreSave r => RestoreSave host m r
  | OpCommit => Commit host m
  | OpIsRunning => IsRunning host m
  end.

(** An envelope that reports failure carries a diagnostic string. *)
Definition diagnostic (v : Response) : Prop :=
  Success v = false -> exists s, Message v = VString s.

(** What a client gets from a handler run on its own in world [w]:
    how the handler ended and the envelopes it rendered. *)
Definition reply {World} (h : M World unit) (w : World)
  : outcome unit * list Response :=
  (fst (h (start_state w)), rendered (snd (h (start_state w)))).

(** The same repository behind two worlds: go-git answers alike. *)
Definition same_repository {World Repository Time}
    (host : Host World Repository Time) (w1 w2 : World) : Prop :=
  (forall path, git_PlainOpen host path w1 = git_PlainOpen host path w2)
  /\ (forall repo, git_Head host repo w1 = git_Head host repo w2)
  /\ (forall repo h,
        git_CommitObject host repo h w1 = git_CommitObject host repo h w2).

(** The same container status behind two worlds. *)
Definition same_container {World Repository Time}
    (host : Host World Repository Time) (container : string) (w1 w2 : World) : Prop :=
  docker_ContainerInspect host container w1
  = docker_ContainerInspect host container w2.

(** Does the answer of the container query let [info.State.Running] be
    read?  An error does (the read is skipped); an inspection does
    when both pointers on the way are set. *)
Definition state_readable (inspected : Types.ContainerJSON + error) : bool :=
  match inspected with
  | inr _ => true
  | inl info =>
      match Types.Base info with
      | Some base =>
          match Types.State base with
          | Some _ => true
          | None => false
          end
      | None => false
      end
  end.

(** The provider returned without error and reports the state running. *)
Definition reports_running (inspected : Types.ContainerJSON + error) : bool :=
  match inspected with
  | inl {| Types.Base := Some {| Types.State := Some state |} |} => Types.Running state
  | _ => false
  end.

(** The text before the first line break (all of it when there is none). *)
Fixpoint first_line (s : string) : string :=
  match s with
  | EmptyString => EmptyString
  | String c s' =>
      if Ascii.eqb c (Ascii.ascii_of_N 10) then EmptyString
      else String c (first_line s')
  end.

(** The summary as the specification words it: the text before the
    first line break of the commit message, with surrounding whitespace
    trimmed. *)
Definition spec_summary (unicode_trim : string -> string) (message : string) : string :=
  Strings.TrimSpace unicode_trim (first_line message).

(** The record Commit reports for a loaded commit: the first line of
    the trimmed message, the committer's time, the hash in full. *)
Definition commit_info {World Repository Time}
    (host : Host World Repository Time) (commit : Object.Commit Time)
  : gmap string string :=
  {[ "message" :=
       first_line (Strings.TrimSpace (unicode_trim host) (Object.Message commit));
     "date" := time_Format host (Object.When (Object.Committer commit))
                 "Mon Jan 02 15:04:05 2006 -0700";
     "sha" := Plumbing.String_ (Object.Hash commit) ]}.

(** A handler that ran to its end in state [st], having made the calls
    [cs] and rendered [v]. *)
Definition done_with {World} (st : State World) (w' : World)
    (cs : list Call) (v : Response) : outcome unit * State World :=
  (Returned tt,
   {| world := w'; calls := calls st ++ cs; rendered := rendered st ++ [v] |}).

(** How RestoreSave ends for a request that fails validation. *)
Definition invalid_request {World} (st : State World) : outcome unit * State World :=
  (Returned tt,
   {| world := world st;
      calls := calls st;
      rendered := rendered st ++ [NewResponse false (VString "Invalid request")] |}).

(** The command RestoreSave builds for a request. *)
Definition restore_command {World Repository Time}
    (host : Host World Repository Time) (m : Monitor) (r : Request) : Cmd :=
  Command (RestoreSaveScript (Conf m))
    [Strings.ToLower (unicode_lower host) (FormValue r "ckey"); FormValue r "date"].

(** How RestoreSave ends once the runner has answered [(out, err, w')]
    to the command [cmd]. *)
Definition restore_ran {World} (st : State World) (cmd : Cmd)
    (out : string) (err : option error) (w' : World) : outcome unit * State World :=
  (Returned tt,
   {| world := w';
      calls := calls st ++ [CallCombinedOutput cmd];
      rendered := rendered st ++ [
        match err with
        | None => NewResponse true (VString out)
        | Some e =>
            NewResponse false
              (VString ("Script failed to run: " ++ Error e ++ LF ++ LF ++ out))
        end] |}).

(** A non-empty string of ASCII white space only. *)
Definition only_space (s : string) : bool :=
  negb (String.eqb s EmptyString)
  && forallb Strings.asciiSpace (list_ascii_of_string s).

(** Lower-case hexadecimal digits. *)
Definition lower_hex (c : ascii) : bool :=
  let n := Strings.byte_val c in
  (((48 <=? n) && (n <=? 57)) || ((97 <=? n) && (n <=? 102)))%N.

(** ** A small concrete host

    A machine with a table of scripts (what each prints and how it
    exits), one repository and a table of containers; running a script
    only counts the run.  Times are kept already formatted. *)

Module Demo.

Record World := {
  scripts : gmap string (string * option error);
  repo_dir : string;
  head : option Plumbing.Hash;
  objects : list (Object.Commit string);
  containers : gmap string Types.ContainerJSON;
  runs : nat
}.

Definition ran (w : World) : World :=
  {| scripts := scripts w; repo_dir := repo_dir w; head := head w;
     objects := objects w; containers := containers w; runs := S (runs w) |}.

Definition not_found : error := {| Error := "exec: no such file or directory" |}.

Definition run (cmd : Cmd) (w : World) : string * option error * World :=
  match scripts w !! name cmd with
  | Some (out, err) => (out ++ String.concat " " (arg cmd), err, ran w)
  | None => (EmptyString, Some not_found, w)
  end.

Definition hash_eqb (a b : Plumbing.Hash) : bool :=
  String.eqb (Plumbing.String_ a) (Plumbing.String_ b).

Definition host : Host World unit string := {|
  exec_Run := fun cmd w => let '(_, err, w') := run cmd w in (err, w');
  exec_CombinedOutput := run;
  git_PlainOpen := fun path w =>
    if String.eqb path (repo_dir w) then inl tt
    else inr {| Error := "repository does not exist" |};
  git_Head := fun _ w =>
    match head w with
    | Some h => inl {| Plumbing.Name := "HEAD"; Plumbing.Target := h |}
    | None => inr {| Error := "reference not found" |}
    end;
  git_CommitObject := fun _ h w =>
    match List.find (fun c => hash_eqb (Object.Hash c) h) (objects w) with
    | Some c => inl c
    | None => inr {| Error := "object not found" |}
    end;
  docker_ContainerInspect := fun container w =>
    match containers w !! container with
    | Some info => inl info
    | None => inr {| Error := "Error: No such container: " ++ container |}
    end;
  time_Format := fun t _ => t;
  unicode_lower := fun s => s;
  unicode_trim := fun s => s;
  unicode_lower_nonempty := fun s nonempty => nonempty
|}.

Definition conf : Config := {|
  Password := "secret";
  StartScript := "/srv/start.sh";
  StopScript := "/srv/stop.sh";
  UpdateScript := "/srv/update.sh";
  RestoreSaveScript := "/srv/restore.sh";
  GitDir := "/srv/game";
  PidFile := "/srv/game.pid";
  Container := "game"
|}.

Definition monitor : Monitor := {| Conf := conf |}.

Definition hash1 : Plumbing.Hash := {|
  Plumbing.bytes :=
    [Byte.x9f; Byte.x86; Byte.xd0; Byte.x81; Byte.x88; Byte.x4c; Byte.x7d;
     Byte.x65; Byte.x9a; Byte.x2f; Byte.xea; Byte.xa0; Byte.xc5; Byte.x5a;
     Byte.xd0; Byte.x15; Byte.xa3; Byte.xbf; Byte.x4f; Byte.x1b];
  Plumbing.size := eq_refl
|}.

Definition dev : Object.Signature string := {|
  Object.Name := "dev";
  Object.Email := "dev@example.org";
  Object.When := "Mon Oct 28 21:10:03 2019 +0100"
|}.

Definition commit_with (message : string) : Object.Commit string := {|
  Object.Hash := hash1;
  Object.Author := dev;
  Object.Committer := dev;
  Object.Message := message
|}.

Definition running_info (running : bool) : Types.ContainerJSON := {|
  Types.Base := Some {|
    Types.ID := "4fa6e0f0c678";
    Types.State := Some {| Types.Status := if running then "running" else "exited";
                           Types.Running := running |}
  |}
|}.

(** The start script works, the stop script exits with status 1, the
    update script is missing; the restore script prints what it was
    given; HEAD is a commit with a two-paragraph message; the
    container runs. *)
Definition w0 : World := {|
  scripts := {[ "/srv/start.sh" := (EmptyString, None);
                "/srv/stop.sh" := (EmptyString, Some {| Error := "exit status 1" |});
                "/srv/restore.sh" := ("restoring ", None) ]};
  repo_dir := "/srv/game";
  head := Some hash1;
  objects := [commit_with ("Fix bug" ++ LF ++ LF ++ "Longer body text")];
  containers := {[ "game" := running_info true ]};
  runs := 0
|}.

Definition with_scripts (t : gmap string (string * option error)) (w : World) : World :=
  {| scripts := t; repo_dir := repo_dir w; head := head w;
     objects := objects w; containers := containers w; runs := runs w |}.

Definition with_repo (dir : string) (h : option Plumbing.Hash)
    (cs : list (Object.Commit string)) (w : World) : World :=
  {| scripts := scripts w; repo_dir := dir; head := h;
     objects := cs; containers := containers w; runs := runs w |}.

Definition with_containers (t : gmap string Types.ContainerJSON) (w : World) : World :=
  {| scripts := scripts w; repo_dir := repo_dir w; head := head w;
     objects := objects w; containers := t; runs := runs w |}.

Definition request (ckey date : string) : Request :=
  {| Form := {[ "ckey" := [ckey]; "date" := [date] ]} |}.

(** An inspection that succeeds but carries no state record. *)
Definition bare_info : Types.ContainerJSON := {| Types.Base := None |}.

(** The base record is there, its [State] pointer is nil. *)
Definition stateless_info : Types.ContainerJSON :=
  {| Types.Base := Some {| Types.ID := "4fa6e0f0c678"; Types.State := None |} |}.

Definition w_bare : World := with_containers {[ "game" := bare_info ]} w0.

(** A commit whose subject line ends in a space. *)
Definition trailing_space_message : string :=
  "Fix bug " ++ LF ++ LF ++ "Longer body text".

Definition w_trailing : World :=
  with_repo "/srv/game" (Some hash1) [commit_with trailing_space_message] w0.

(** No repository at the configured path; a repository without HEAD;
    a HEAD whose commit object is missing. *)
Definition w_no_repo : World := with_repo "/srv/elsewhere" None [] w0.
Definition w_no_head : World := with_repo "/srv/game" None [] w0.
Definition w_no_object : World := with_repo "/srv/game" (Some hash1) [] w0.

End Demo.

(** ** More vocabulary: calls, bytes and trimmed strings *)

(** A call to the process runner ([cmd.Run], [cmd.CombinedOutput]). *)
Definition is_runner_call (c : Call) : bool :=
  match c with
  | CallRun _ | CallCombinedOutput _ => true
  | _ => false
  end.

(** The operations that run a script. *)
Definition runs_script (op : operation) : bool :=
  match op with
  | OpStart | OpStop | OpUpdate | OpRestoreSave _ => true
  | OpCommit | OpIsRunning => false
  end.

(** An ASCII upper-case letter. *)
Definition is_upper (c : ascii) : bool :=
  ((65 <=? Strings.byte_val c) && (Strings.byte_val c <=? 90))%N.

Definition all_space (s : string) : bool :=
  forallb Strings.asciiSpace (list_ascii_of_string s).

Definition head_byte (s : string) : option ascii :=
  match s with
  | EmptyString => None
  | String c _ => Some c
  end.

Fixpoint last_byte (s : string) : option ascii :=
  match s with
  | EmptyString => None
  | String c EmptyString => Some c
  | String _ s' => last_byte s'
  end.

(** A byte that is there and is no ASCII white space. *)
Definition is_ink (c : option ascii) : bool :=
  match c with
  | Some c => negb (Strings.asciiSpace c)
  | None => false
  end.

(** What the two loops of [TrimSpace] leave of an ASCII string. *)
Definition trim_left (s : string) : string := snd (Strings.scan_space s).

Definition trim_right (s : string) : string :=
  String.rev (snd (Strings.scan_space (String.rev s))).

(** [encoding/hex]: [fromHexChar] and the decoding of one pair of
    digits, the inverse of what [EncodeToString] writes for a byte. *)
Definition fromHexChar (c : ascii) : option N :=
  let n := Strings.byte_val c in
  if ((48 <=? n) && (n <=? 57))%N then Some (n - 48)%N
  else if ((97 <=? n) && (n <=? 102))%N then Some (n - 97 + 10)%N
  else if ((65 <=? n) && (n <=? 70))%N then Some (n - 65 + 10)%N
  else None.

Fixpoint DecodeString (s : string) : option (list Byte.byte) :=
  match s with
  | EmptyString => Some []
  | String _ EmptyString => None
  | String a (String b s') =>
      match fromHexChar a, fromHexChar b, DecodeString s' with
      | Some hi, Some lo, Some rest =>
          match Byte.of_N (N.lor (N.shiftl hi 4) lo) with
          | Some v => Some (v :: rest)
          | None => None
          end
      | _, _, _ => None
      end
  end.

(** ** The router built by [main]

    What the router sees of an [http.Request]: the method, the path,
    what the [Authorization] header holds (the user and the password of
    a well-formed [Basic] header, [None] when there is no such header),
    and the form. *)
Record HTTPRequest := {
  Method : string;
  Path : string;
  Authorization : option (string * string);
  Values : Request
}.

(** chi's [methodMap]: the methods the router knows. *)
Definition methodMap : list string :=
  ["CONNECT"; "DELETE"; "GET"; "HEAD"; "OPTIONS"; "PATCH"; "POST"; "PUT"; "TRACE"].

(** What a pattern is bound to: the Prometheus handler or a handler of
    the monitor (which may read the request). *)
Inductive endpoint : Type :=
| Metrics
| Operation (op : Request -> operation).

(** One registration: [r.Get] and [r.Post] bind one method, [r.Handle]
    binds every method ([None]). *)
Record Route := {
  route_method : option string;
  route_pattern : string;
  route_endpoint : endpoint
}.

(** The registrations of [main], in its order. *)
Definition routes : list Route := [
  {| route_method := None; route_pattern := "/metrics"; route_endpoint := Metrics |};
  {| route_method := Some "POST"; route_pattern := "/start";
     route_endpoint := Operation (fun _ => OpStart) |};
  {| route_method := Some "POST"; route_pattern := "/stop";
     route_endpoint := Operation (fun _ => OpStop) |};
  {| route_method := Some "POST"; route_pattern := "/update";
     route_endpoint := Operation (fun _ => OpUpdate) |};
  {| route_method := Some "POST"; route_pattern := "/restoresave";
     route_endpoint := Operation OpRestoreSave |};
  {| route_method := Some "GET"; route_pattern := "/commit";
     route_endpoint := Operation (fun _ => OpCommit) |};
  {| route_method := Some "GET"; route_pattern := "/is_running";
     route_endpoint := Operation (fun _ => OpIsRunning) |}
].

Definition binds (method : string) (rt : Route) : bool :=
  match route_method rt with
  | None => true
  | Some bound => String.eqb method bound
  end.

Inductive routed : Type :=
| Routed (e : endpoint)
| MethodNotAllowed
| NotFound.

(** chi's [routeHTTP] over patterns without parameters: a method
    outside [methodMap] is not allowed; a path that is no pattern is
    not found; a pattern that does not bind the method is not allowed. *)
Definition FindRoute (method path : string) : routed :=
  if negb (existsb (String.eqb method) methodMap) then MethodNotAllowed
  else
    match List.filter (fun rt => String.eqb path (route_pattern rt)) routes with
    | [] => NotFound
    | here =>
        match List.find (binds method) here with
        | Some rt => Routed (route_endpoint rt)
        | None => MethodNotAllowed
        end
    end.

(** What goes back to the client: a status with the envelopes rendered
    (none for the error pages), or the metrics page. *)
Inductive HTTPReply : Type :=
| Answered (status : nat) (body : list Response)
| MetricsPage.

Section Router.

Variables World Repository Time : Type.
Variable host : Host World Repository Time.

(** [crypto/sha256]: the digest of a string. *)
Variable Sum256 : string -> string.

(** [httpauth.SimpleBasicAuth("auth", password)]: the digests of the
    given user and password are compared with those of the required
    ones. *)
Definition authenticate (password : string) (req : HTTPRequest) : bool :=
  match Authorization req with
  | None => false
  | Some (givenUser, givenPass) =>
      String.eqb (Sum256 givenUser) (Sum256 "auth")
      && String.eqb (Sum256 givenPass) (Sum256 password)
  end.

(** One request through the router of [main], in world [w].  Of the
    middlewares, two decide the answer: [Recoverer] (a panic of the
    handler becomes a 500 when nothing was written) and the basic
    authentication (401), which runs before any routing; the request
    id, the real IP, the logger, the content type and the Prometheus
    counters leave it alone.  A handler that renders answers with
    status 200; chi answers 404 and 405 itself. *)
Definition ServeHTTP (m : Monitor) (req : HTTPRequest) (w : World)
  : HTTPReply * State World :=
  if negb (authenticate (Password (Conf m)) req) then (Answered 401 [], start_state w)
  else
    match FindRoute (Method req) (Path req) with
    | NotFound => (Answered 404 [], start_state w)
    | MethodNotAllowed => (Answered 405 [], start_state w)
    | Routed Metrics => (MetricsPage, start_state w)
    | Routed (Operation op) =>
        let '(o, st) := handle host m (op (Values req)) (start_state w) in
        match o, rendered st with
        | Panicked _, [] => (Answered 500 [], st)
        | _, body => (Answered 200 body, st)
        end
    end.

(** Requests served one after another: the replies, the calls made and
    the world left. *)
Fixpoint serve_all (m : Monitor) (reqs : list HTTPRequest) (w : World)
  : list HTTPReply * list Call * World :=
  match reqs with
  | [] => ([], [], w)
  | req :: reqs' =>
      let '(answer, st) := ServeHTTP m req w in
      let '(answers, cs, w') := serve_all m reqs' (world st) in
      (answer :: answers, (calls st ++ cs)%list, w')
  end.

End Router.

Arguments ServeHTTP {World Repository Time} host Sum256 m req w.
Arguments serve_all {World Repository Time} host Sum256 m reqs w.

(** A request that may run a script: a POST to one of the four script
    patterns. *)
Definition script_request (req : HTTPRequest) : bool :=
  String.eqb (Method req) "POST"
  && existsb (String.eqb (Path req)) ["/start"; "/stop"; "/update"; "/restoresave"].

(** ** The start of the process ([main])

    What [main] asks of the machine before it serves: the file, its
    parse, the Docker client, and the listener, which returns only with
    an error ([None]: it serves for good). *)
Record OS (Client : Type) := {
  ioutil_ReadFile : string -> string + error;
  json_Unmarshal : string -> Config + error;
  docker_NewEnvClient : Client + error;
  http_ListenAndServe : string -> option error
}.
Arguments ioutil_ReadFile {Client} o _.
Arguments json_Unmarshal {Client} o _.
Arguments docker_NewEnvClient {Client} o.
Arguments http_ListenAndServe {Client} o _.

(** How [main] ends: [os.Exit(code)], serving on an address with a
    monitor and the password asked of clients, or falling off its end
    (exit status 0). *)
Inductive ending : Type :=
| Exit (code : nat)
| Serving (addr : string) (m : Monitor) (password : string)
| Returns.

Record Process := {
  stdout : list string;
  ended : ending
}.

Definition main {Client} (os : OS Client) : Process :=
  match ioutil_ReadFile os "config.json" with
  | inr err =>
      {| stdout := ["config read error: " ++ Error err ++ LF]; ended := Exit 1 |}
  | inl file =>
      match json_Unmarshal os file with
      | inr err =>
          {| stdout := ["config parse error: " ++ Error err ++ LF]; ended := Exit 1 |}
      | inl config =>
          match docker_NewEnvClient os with
          | inr err =>
              {| stdout := ["docker client failed: " ++ Error err ++ LF];
                 ended := Exit 1 |}
          | inl client =>
              let monitor := {| Conf := config |} in
              match http_ListenAndServe os ":3889" with
              | None =>
                  {| stdout := ["starting" ++ LF];
                     ended := Serving ":3889" monitor (Password config) |}
              | Some _ => {| stdout := ["starting" ++ LF]; ended := Returns |}
              end
          end
      end
  end.

(** A machine on which everything works, with the configuration of the
    demo monitor, and requests of a client that knows the password. *)
Module DemoWeb.

Definition os : OS unit := {|
  ioutil_ReadFile := fun path =>
    if String.eqb path "config.json" then inl "{...}"
    else inr {| Error := "open " ++ path ++ ": no such file or directory" |};
  json_Unmarshal := fun _ => inl Demo.conf;
  docker_NewEnvClient := inl tt;
  http_ListenAndServe := fun _ => None
|}.

(** The port is taken. *)
Definition os_port_taken : OS unit := {|
  ioutil_ReadFile := ioutil_ReadFile os;
  json_Unmarshal := json_Unmarshal os;
  docker_NewEnvClient := inl tt;
  http_ListenAndServe := fun addr =>
    Some {| Error := "listen tcp " ++ addr ++ ": bind: address already in use" |}
|}.

(** The configuration file is not valid JSON. *)
Definition os_bad_config : OS unit := {|
  ioutil_ReadFile := ioutil_ReadFile os;
  json_Unmarshal := fun _ => inr {| Error := "unexpected end of JSON input" |};
  docker_NewEnvClient := inl tt;
  http_ListenAndServe := fun _ => None
|}.

(** A stand-in digest for the examples. *)
Definition digest (s : string) : string := "sha256:" ++ s.

Definition request (method path : string) (password : option string) (ckey date : string)
  : HTTPRequest :=
  {| Method := method; Path := path;
     Authorization := match password with
                      | Some p => Some ("auth", p)
                      | None => None
                      end;
     Values := Demo.request ckey date |}.

(** A machine without a Docker daemon to talk to. *)
Definition os_no_docker : OS unit := {|
  ioutil_ReadFile := ioutil_ReadFile os;
  json_Unmarshal := json_Unmarshal os;
  docker_NewEnvClient := inr {| Error := "unable to parse docker host" |};
  http_ListenAndServe := fun _ => None
|}.

(** A time as its renderings in two layouts, and a clock that honours
    the layout it is given. *)
Definition format (t : string * string) (layout : string) : string :=
  if String.eqb layout "Mon Jan 02 15:04:05 2006 -0700" then snd t
  else if String.eqb layout "2006-01-02T15:04:05Z07:00" then fst t
  else layout.

(** A commit written by one person and committed by another the day
    after. *)
Definition picked_commit : Object.Commit (string * string) := {|
  Object.Hash := Demo.hash1;
  Object.Author := {|
    Object.Name := "dev";
    Object.Email := "dev@example.org";
    Object.When := ("2019-10-28T21:10:03+01:00", "Mon Oct 28 21:10:03 2019 +0100")
  |};
  Object.Committer := {|
    Object.Name := "maintainer";
    Object.Email := "maintainer@example.org";
    Object.When := ("2019-10-29T08:00:00Z", "Tue Oct 29 08:00:00 2019 +0000")
  |};
  Object.Message := "Fix bug" ++ LF
|}.

(** A host whose repository holds just that commit. *)
Definition clock_host : Host unit unit (string * string) := {|
  exec_Run := fun _ w => (None, w);
  exec_CombinedOutput := fun _ w => (EmptyString, None, w);
  git_PlainOpen := fun _ _ => inl tt;
  git_Head := fun _ _ => inl {| Plumbing.Name := "HEAD"; Plumbing.Target := Demo.hash1 |};
  git_CommitObject := fun _ _ _ => inl picked_commit;
  docker_ContainerInspect := fun _ _ => inr {| Error := "Cannot connect to the Docker daemon" |};
  time_Format := format;
  unicode_lower := fun s => s;
  unicode_trim := fun s => s;
  unicode_lower_nonempty := fun s nonempty => nonempty
|}.

End DemoWeb.

(** * Properties *)

(** ** The library functions on examples *)

Example ToLower_Alice : Strings.ToLower (fun s => s) "Alice" = "alice".
Proof. reflexivity. Qed.

Example SplitN_fix_bug :
  Strings.SplitN ("Fix bug" ++ LF ++ LF ++ "Longer body text") LF 2
  = ["Fix bug"; LF ++ "Longer body text"].
Proof. reflexivity. Qed.

Example SplitN_no_break : Strings.SplitN "Fix bug" LF 2 = ["Fix bug"].
Proof. reflexivity. Qed.

Example TrimSpace_both_sides :
  Strings.TrimSpace (fun s => s) ("  " ++ LF ++ "Fix bug " ++ LF) = "Fix bug".
Proof. reflexivity. Qed.

Example hex_encode_bytes :
  Hex.EncodeToString [Byte.x00; Byte.x1f; Byte.xa0; Byte.xff] = "001fa0ff".
Proof. reflexivity. Qed.

(** ** Package [strings] *)

Section StringFacts.

Lemma eqb_empty_false (s : string) :
  s <> EmptyString -> String.eqb s EmptyString = false.
Proof. intros ne. apply String.eqb_neq. exact ne. Qed.

Lemma map_bytes_nonempty f (s : string) :
  s <> EmptyString -> Strings.map_bytes f s <> EmptyString.
Proof. destruct s as [|c s]; [congruence | discriminate]. Qed.

(** Lower-casing never empties a string. *)
Lemma ToLower_nonempty {World Repository Time}
    (host : Host World Repository Time) (s : string) :
  s <> EmptyString -> Strings.ToLower (unicode_lower host) s <> EmptyString.
Proof.
  intros ne. unfold Strings.ToLower.
  destruct (Strings.isASCII s).
  - apply map_bytes_nonempty, ne.
  - apply unicode_lower_nonempty, ne.
Qed.

(** An ASCII space is below [RuneSelf] and is no upper-case letter. *)
Lemma asciiSpace_plain (c : ascii) :
  Strings.asciiSpace c = true ->
  (Strings.byte_val c <? Strings.RuneSelf)%N = true /\ Strings.lower_byte c = c.
Proof.
  unfold Strings.asciiSpace, Strings.lower_byte, Strings.RuneSelf.
  generalize (Strings.byte_val c). intros n sp.
  repeat (apply orb_prop in sp; destruct sp as [sp | sp]);
    apply N.eqb_eq in sp; subst n; split; reflexivity.
Qed.

Lemma spaces_lowered (f : string -> string) (s : string) :
  forallb Strings.asciiSpace (list_ascii_of_string s) = true ->
  Strings.ToLower f s = s.
Proof.
  intros sp. unfold Strings.ToLower.
  assert (both : Strings.isASCII s = true /\ Strings.map_bytes Strings.lower_byte s = s).
  { induction s as [|c s IH]; [split; reflexivity|].
    simpl in sp. apply andb_prop in sp as [spc sps].
    destruct (asciiSpace_plain c spc) as [lt low].
    destruct (IH sps) as [asc same].
    simpl. rewrite lt, asc, low, same. split; reflexivity. }
  destruct both as [-> ->]. reflexivity.
Qed.

Lemma only_space_nonempty (s : string) : only_space s = true -> s <> EmptyString.
Proof.
  unfold only_space. intros sp. apply andb_prop in sp as [ne _].
  apply negb_true_iff, String.eqb_neq in ne. exact ne.
Qed.

(** White space is left alone by [ToLower]. *)
Lemma only_space_lowered (f : string -> string) (s : string) :
  only_space s = true -> Strings.ToLower f s = s.
Proof.
  unfold only_space. intros sp. apply andb_prop in sp as [_ sp].
  apply spaces_lowered, sp.
Qed.

Lemma after_prefix_LF (s : string) :
  Strings.after_prefix LF s
  = match s with
    | String c s' => if Ascii.eqb (Ascii.ascii_of_N 10) c then Some s' else None
    | EmptyString => None
    end.
Proof. destruct s as [|c s]; reflexivity. Qed.

(** Cutting at the first line break leaves [first_line] in front. *)
Lemma cut_LF_first_line (s : string) :
  match Strings.cut LF s with
  | Some (a, rest) => a = first_line s /\ s = a ++ LF ++ rest
  | None => first_line s = s
  end.
Proof.
  induction s as [|c s IH]; [reflexivity|].
  cbn [Strings.cut]. rewrite after_prefix_LF.
  cbn [first_line]. rewrite (Ascii.eqb_sym c).
  destruct (Ascii.eqb (Ascii.ascii_of_N 10) c) eqn:is_lf.
  - apply Ascii.eqb_eq in is_lf. subst c. split; reflexivity.
  - destruct (Strings.cut LF s) as [[a rest]|].
    + destruct IH as [-> cat]. split; [reflexivity|].
      rewrite cat at 1. reflexivity.
    + rewrite IH. reflexivity.
Qed.

(** [SplitN(s, "\n", 2)[0]] exists and is the first line of [s]. *)
Lemma SplitN_LF_head (s : string) :
  Strings.SplitN s LF 2 !! 0 = Some (first_line s).
Proof.
  unfold Strings.SplitN, Strings.genSplit.
  pose proof (cut_LF_first_line s) as cut.
  destruct (Strings.cut LF s) as [[a rest]|].
  - destruct cut as [-> _]. reflexivity.
  - rewrite cut. reflexivity.
Qed.

Lemma first_line_no_break (s : string) :
  Forall (fun c => c <> Ascii.ascii_of_N 10) (list_ascii_of_string (first_line s)).
Proof.
  induction s as [|c s IH]; [constructor|].
  cbn [first_line]. destruct (Ascii.eqb c (Ascii.ascii_of_N 10)) eqn:is_lf.
  - constructor.
  - apply Ascii.eqb_neq in is_lf. constructor; assumption.
Qed.

(** The first line is what stands in front of the first line break. *)
Lemma first_line_prefix (s : string) :
  exists rest,
    s = first_line s ++ rest
    /\ (rest = EmptyString \/ exists rest', rest = LF ++ rest').
Proof.
  pose proof (cut_LF_first_line s) as cut.
  destruct (Strings.cut LF s) as [[a rest]|].
  - destruct cut as [-> cat]. exists (LF ++ rest). split; [exact cat|].
    right. exists rest. reflexivity.
  - exists EmptyString. rewrite cut. split; [| left; reflexivity].
    clear cut. induction s as [|c s IH]; [reflexivity|].
    change (String c s = String c (s ++ EmptyString)). f_equal. exact IH.
Qed.

End StringFacts.

Lemma app_one_neq {A} (l : list A) (x : A) : (l ++ [x])%list <> l.
Proof.
  intros same. apply (f_equal length) in same.
  rewrite length_app in same. cbn in same. lia.
Qed.

(** ** Package [encoding/hex] and [plumbing.Hash] *)

Lemma EncodeToString_length (src : list Byte.byte) :
  String.length (Hex.EncodeToString src) = 2 * length src.
Proof. induction src as [|v src IH]; [reflexivity|]. simpl. rewrite IH. lia. Qed.

Lemma EncodeToString_lower_hex (src : list Byte.byte) :
  forallb lower_hex (list_ascii_of_string (Hex.EncodeToString src)) = true.
Proof.
  induction src as [|v src IH]; [reflexivity|].
  cbn [Hex.EncodeToString list_ascii_of_string forallb]. rewrite IH.
  destruct v; reflexivity.
Qed.

(** A hash prints as 40 lower-case hexadecimal digits. *)
Lemma Hash_String_full (h : Plumbing.Hash) :
  String.length (Plumbing.String_ h) = 40
  /\ forallb lower_hex (list_ascii_of_string (Plumbing.String_ h)) = true.
Proof.
  unfold Plumbing.String_. split.
  - rewrite EncodeToString_length, (Plumbing.size h). reflexivity.
  - apply EncodeToString_lower_hex.
Qed.

(** ** The handlers *)

Section Runs.

Context {World Repository Time : Type}.
Variable host : Host World Repository Time.
Variable m : Monitor.

(** What a script operation does, read off the runner's answer. *)
Lemma lifecycle_run (a : lifecycle) (st : State World) :
  lifecycle_handler a host m st
  = let cmd := Command (lifecycle_script a (Conf m)) [] in
    let '(err, w') := exec_Run host cmd (world st) in
    done_with st w' [CallRun cmd]
      match err with
      | None => NewResponse true (VString (lifecycle_done a))
      | Some e =>
          NewResponse false
            (VString ("Server failed to " ++ lifecycle_verb a ++ " (" ++ Error e ++ ")"))
      end.
Proof.
  destruct a; cbn [lifecycle_handler lifecycle_script lifecycle_done lifecycle_verb];
    unfold Start, Stop, Update, mbind, M_bind, Run, Render, logged, done_with;
    cbv zeta;
    destruct (exec_Run host _ (world st)) as [[e|] w']; reflexivity.
Qed.

(** What RestoreSave does, read off the two fields and the runner's
    answer.  The test on the lower-cased [ckey] is a test on [ckey]
    itself, since lower-casing never empties a string. *)
Lemma RestoreSave_run (r : Request) (st : State World) :
  RestoreSave host m r st
  = if String.eqb (FormValue r "ckey") EmptyString
       || String.eqb (FormValue r "date") EmptyString
    then invalid_request st
    else
      let cmd := restore_command host m r in
      let '(out, err, w') := exec_CombinedOutput host cmd (world st) in
      done_with st w' [CallCombinedOutput cmd]
        match err with
        | None => NewResponse true (VString out)
        | Some e =>
            NewResponse false
              (VString ("Script failed to run: " ++ Error e ++ LF ++ LF ++ out))
        end.
Proof.
  unfold RestoreSave.
  assert (String.eqb (Strings.ToLower (unicode_lower host) (FormValue r "ckey"))
            EmptyString
          = String.eqb (FormValue r "ckey") EmptyString) as ->.
  { destruct (String.eqb_spec (FormValue r "ckey") EmptyString) as [-> | ckey].
    - reflexivity.
    - apply eqb_empty_false, ToLower_nonempty, ckey. }
  destruct (_ || _); [reflexivity|].
  unfold mbind, M_bind, CombinedOutput, Render, logged, done_with, restore_command.
  cbv zeta.
  destruct (exec_CombinedOutput host _ (world st)) as [[out [e|]] w']; reflexivity.
Qed.

(** What Commit does, read off go-git's answers. *)
Lemma Commit_run (st : State World) :
  Commit host m st
  = let w := world st in
    let dir := GitDir (Conf m) in
    match git_PlainOpen host dir w with
    | inr e =>
        done_with st w [CallPlainOpen dir]
          (NewResponse false (VString ("Failed to open git repo (" ++ Error e ++ ")")))
    | inl repo =>
        match git_Head host repo w with
        | inr e =>
            done_with st w [CallPlainOpen dir; CallHead]
              (NewResponse false (VString ("Failed to get HEAD ref (" ++ Error e ++ ")")))
        | inl head =>
            let h := Plumbing.Target head in
            match git_CommitObject host repo h w with
            | inr e =>
                done_with st w [CallPlainOpen dir; CallHead; CallCommitObject h]
                  (NewResponse false
                     (VString ("Failed to get HEAD commit (" ++ Error e ++ ")")))
            | inl commit =>
                done_with st w [CallPlainOpen dir; CallHead; CallCommitObject h]
                  (NewResponse true (VStringMap (commit_info host commit)))
            end
        end
    end.
Proof.
  unfold Commit, Commit_body, mbind, M_bind, mret, M_ret, PlainOpen, Head,
    CommitObject, Render, logged, done_with, index.
  cbn [world calls rendered]. cbv zeta.
  destruct (git_PlainOpen host (GitDir (Conf m)) (world st)) as [repo|e];
    cbn [world calls rendered]; [| reflexivity].
  destruct (git_Head host repo (world st)) as [head|e];
    cbn [world calls rendered]; [| rewrite <- app_assoc; reflexivity].
  destruct (git_CommitObject host repo (Plumbing.Target head) (world st)) as [commit|e];
    cbn [world calls rendered]; rewrite <- !app_assoc; [| reflexivity].
  rewrite SplitN_LF_head. reflexivity.
Qed.

(** What IsRunning does, read off the container query's answer. *)
Lemma IsRunning_run (st : State World) :
  IsRunning host m st
  = let container := Container (Conf m) in
    let inspected := docker_ContainerInspect host container (world st) in
    if state_readable inspected
    then done_with st (world st) [CallContainerInspect container]
           (NewResponse true (VBool (reports_running inspected)))
    else (Panicked nil_dereference,
          {| world := world st;
             calls := calls st ++ [CallContainerInspect container];
             rendered := rendered st |}).
Proof.
  unfold IsRunning, mbind, M_bind, ContainerInspect, Render, logged, done_with.
  cbn [world calls rendered]. cbv zeta.
  destruct (docker_ContainerInspect host (Container (Conf m)) (world st))
    as [[[[id [[status running]|]]|]]|e]; try reflexivity.
  destruct running; reflexivity.
Qed.

End Runs.

(** C1. Start, Stop and Update: when the runner reports that the script
    exited without error ([err] is nil), the handler renders
    [{success=true, message=<the fixed message of the action>}]; when
    the runner reports a failure [e], it renders [{success=false,
    message="Server failed to start|stop|update (<e>)"}].  The script
    is run once, with no argument. *)
Theorem lifecycle_envelope {World Repository Time}
    (host : Host World Repository Time) (m : Monitor) (a : lifecycle)
    (st : State World) (err : option error) (w' : World) :
  exec_Run host {| name := lifecycle_script a (Conf m); arg := [] |} (world st) = (err, w') ->
  lifecycle_handler a host m st
  = (Returned tt,
     {| world := w';
        calls := calls st ++ [CallRun {| name := lifecycle_script a (Conf m); arg := [] |}];
        rendered := rendered st ++ [
          match err with
          | None => {| Success := true; Message := VString (lifecycle_done a) |}
          | Some e =>
              {| Success := false;
                 Message := VString ("Server failed to " ++ lifecycle_verb a ++ " ("
                              ++ Error e ++ ")") |}
          end] |}).
Proof.
  intros ran. rewrite lifecycle_run. cbv zeta. unfold Command.
  rewrite ran. destruct err; reflexivity.
Qed.

Lemma lifecycle_envelope_witness :
  Start Demo.host Demo.monitor (start_state Demo.w0)
  = (Returned tt,
     {| world := Demo.ran Demo.w0;
        calls := [CallRun {| name := "/srv/start.sh"; arg := [] |}];
        rendered := [{| Success := true; Message := VString "Server has been started" |}] |})
  /\ Stop Demo.host Demo.monitor (start_state Demo.w0)
     = (Returned tt,
        {| world := Demo.ran Demo.w0;
           calls := [CallRun {| name := "/srv/stop.sh"; arg := [] |}];
           rendered := [{| Success := false;
                           Message := VString "Server failed to stop (exit status 1)" |}] |})
  /\ Update Demo.host Demo.monitor (start_state Demo.w0)
     = (Returned tt,
        {| world := Demo.w0;
           calls := [CallRun {| name := "/srv/update.sh"; arg := [] |}];
           rendered := [{| Success := false;
                           Message := VString
                             "Server failed to update (exec: no such file or directory)" |}] |}).
Proof.
  split; [| split].
  - apply (lifecycle_envelope Demo.host Demo.monitor DoStart (start_state Demo.w0)
             None (Demo.ran Demo.w0)).
    vm_compute. reflexivity.
  - apply (lifecycle_envelope Demo.host Demo.monitor DoStop (start_state Demo.w0)
             (Some {| Error := "exit status 1" |}) (Demo.ran Demo.w0)).
    vm_compute. reflexivity.
  - apply (lifecycle_envelope Demo.host Demo.monitor DoUpdate (start_state Demo.w0)
             (Some Demo.not_found) Demo.w0).
    vm_compute. reflexivity.
Defined.

(** *** RestoreSave *)

(** C5. A request whose [ckey] or [date] field (or both) is the empty
    string gets [{success=false, message="Invalid request"}]; the
    handler makes no call at all (the list of calls and the world are
    as before), so the runner is never invoked. *)
Theorem RestoreSave_invalid_request {World Repository Time}
    (host : Host World Repository Time) (m : Monitor) (r : Request) (st : State World) :
  FormValue r "ckey" = EmptyString \/ FormValue r "date" = EmptyString ->
  RestoreSave host m r st
  = (Returned tt,
     {| world := world st;
        calls := calls st;
        rendered := rendered st ++ [{| Success := false;
                                       Message := VString "Invalid request" |}] |}).
Proof.
  intros empty. rewrite RestoreSave_run.
  destruct empty as [-> | ->].
  - reflexivity.
  - cbn [String.eqb]. rewrite orb_true_r. reflexivity.
Qed.

Lemma RestoreSave_invalid_request_witness :
  let invalid := (Returned tt,
                  {| world := Demo.w0; calls := [];
                     rendered := [{| Success := false;
                                     Message := VString "Invalid request" |}] |}) in
  RestoreSave Demo.host Demo.monitor (Demo.request "" "2019-10-28") (start_state Demo.w0)
  = invalid
  /\ RestoreSave Demo.host Demo.monitor (Demo.request "Alice" "") (start_state Demo.w0)
     = invalid
  /\ RestoreSave Demo.host Demo.monitor {| Form := ∅ |} (start_state Demo.w0) = invalid.
Proof.
  cbv zeta. split; [| split].
  - apply (RestoreSave_invalid_request Demo.host Demo.monitor
             (Demo.request "" "2019-10-28") (start_state Demo.w0)).
    left. vm_compute. reflexivity.
  - apply (RestoreSave_invalid_request Demo.host Demo.monitor
             (Demo.request "Alice" "") (start_state Demo.w0)).
    right. vm_compute. reflexivity.
  - apply (RestoreSave_invalid_request Demo.host Demo.monitor
             {| Form := ∅ |} (start_state Demo.w0)).
    left. vm_compute. reflexivity.
Defined.

(** C4. With both fields non-empty, RestoreSave runs the restore script
    once with two positional arguments, the lower-cased [ckey] and the
    [date] as received.  When the runner reports no error the envelope
    is [{success=true, message=<captured output>}]; when it reports
    the error [e] the envelope is [{success=false, message="Script
    failed to run: <e>\n\n<captured output>"}]. *)
Theorem RestoreSave_runs_script {World Repository Time}
    (host : Host World Repository Time) (m : Monitor) (r : Request) (st : State World)
    (out : string) (err : option error) (w' : World) :
  let script := {| name := RestoreSaveScript (Conf m);
                   arg := [Strings.ToLower (unicode_lower host) (FormValue r "ckey");
                           FormValue r "date"] |} in
  FormValue r "ckey" <> EmptyString ->
  FormValue r "date" <> EmptyString ->
  exec_CombinedOutput host script (world st) = (out, err, w') ->
  RestoreSave host m r st
  = (Returned tt,
     {| world := w';
        calls := calls st ++ [CallCombinedOutput script];
        rendered := rendered st ++ [
          match err with
          | None => {| Success := true; Message := VString out |}
          | Some e =>
              {| Success := false;
                 Message := VString ("Script failed to run: " ++ Error e ++ LF ++ LF ++ out) |}
          end] |}).
Proof.
  cbv zeta. intros ckey date ran. rewrite RestoreSave_run.
  rewrite (eqb_empty_false _ ckey), (eqb_empty_false _ date). cbn [orb]. cbv zeta.
  unfold restore_command, Command. rewrite ran. destruct err; reflexivity.
Qed.

Lemma RestoreSave_runs_script_witness :
  RestoreSave Demo.host Demo.monitor (Demo.request "Alice" "2019-10-28")
    (start_state Demo.w0)
  = (Returned tt,
     {| world := Demo.ran Demo.w0;
        calls := [CallCombinedOutput {| name := "/srv/restore.sh";
                                        arg := ["alice"; "2019-10-28"] |}];
        rendered := [{| Success := true; Message := VString "restoring alice 2019-10-28" |}] |})
  /\ RestoreSave Demo.host Demo.monitor (Demo.request "Alice" "2019-10-28")
       (start_state
          (Demo.with_scripts
             {[ "/srv/restore.sh" := ("no such save: ", Some {| Error := "exit status 2" |}) ]}
             Demo.w0))
     = (Returned tt,
        {| world :=
             Demo.ran
               (Demo.with_scripts
                  {[ "/srv/restore.sh" :=
                       ("no such save: ", Some {| Error := "exit status 2" |}) ]}
                  Demo.w0);
           calls := [CallCombinedOutput {| name := "/srv/restore.sh";
                                           arg := ["alice"; "2019-10-28"] |}];
           rendered := [{| Success := false;
                           Message := VString ("Script failed to run: exit status 2"
                                                ++ LF ++ LF
                                                ++ "no such save: alice 2019-10-28") |}] |}).
Proof.
  split.
  - apply (RestoreSave_runs_script Demo.host Demo.monitor
             (Demo.request "Alice" "2019-10-28") (start_state Demo.w0)
             "restoring alice 2019-10-28" None (Demo.ran Demo.w0)).
    + vm_compute. discriminate.
    + vm_compute. discriminate.
    + vm_compute. reflexivity.
  - apply (RestoreSave_runs_script Demo.host Demo.monitor
             (Demo.request "Alice" "2019-10-28")
             (start_state
                (Demo.with_scripts
                   {[ "/srv/restore.sh" :=
                        ("no such save: ", Some {| Error := "exit status 2" |}) ]}
                   Demo.w0))
             "no such save: alice 2019-10-28" (Some {| Error := "exit status 2" |})).
    + vm_compute. discriminate.
    + vm_compute. discriminate.
    + vm_compute. reflexivity.
Defined.

(** C9. RestoreSave turns a request down exactly when a field is the
    empty string, and trims nothing.  A [ckey] that is a non-empty
    string of white space only passes validation and is handed to the
    script as it is, as the first positional argument; a [date] that is
    a non-empty string of white space only passes validation and is
    handed over as it is, as the second.  The envelope is then the one
    of a run of the script, not "Invalid request". *)
Theorem RestoreSave_keeps_whitespace {World Repository Time}
    (host : Host World Repository Time) (m : Monitor) (r : Request) (st : State World) :
  let ckey := FormValue r "ckey" in
  let date := FormValue r "date" in
  let script := RestoreSaveScript (Conf m) in
  (RestoreSave host m r st = invalid_request st
   <-> ckey = EmptyString \/ date = EmptyString)
  /\ (forall (out : string) (err : option error) (w' : World),
        only_space ckey = true ->
        date <> EmptyString ->
        exec_CombinedOutput host (Command script [ckey; date]) (world st) = (out, err, w') ->
        RestoreSave host m r st = restore_ran st (Command script [ckey; date]) out err w')
  /\ (forall (out : string) (err : option error) (w' : World),
        let lowered := Strings.ToLower (unicode_lower host) ckey in
        ckey <> EmptyString ->
        only_space date = true ->
        exec_CombinedOutput host (Command script [lowered; date]) (world st)
        = (out, err, w') ->
        RestoreSave host m r st = restore_ran st (Command script [lowered; date]) out err w').
Proof.
  cbv zeta. rewrite RestoreSave_run. split; [| split].
  - destruct (String.eqb_spec (FormValue r "ckey") EmptyString) as [ckey|ckey];
      [split; [left; exact ckey | reflexivity] |].
    destruct (String.eqb_spec (FormValue r "date") EmptyString) as [date|date];
      [split; [right; exact date | reflexivity] |].
    cbn [orb]. cbv zeta.
    destruct (exec_CombinedOutput host _ (world st)) as [[out err] w'].
    split; [| intros [empty | empty]; contradiction].
    unfold done_with, invalid_request. intros turned_down.
    injection turned_down as _ grew _.
    destruct (app_one_neq _ _ grew).
  - intros out err w' ckey date ran.
    rewrite (eqb_empty_false _ (only_space_nonempty _ ckey)).
    rewrite (eqb_empty_false _ date). cbn [orb].
    unfold restore_command.
    rewrite (only_space_lowered (unicode_lower host) _ ckey).
    cbv zeta. rewrite ran. reflexivity.
  - intros out err w' ckey date ran.
    rewrite (eqb_empty_false _ ckey).
    rewrite (eqb_empty_false _ (only_space_nonempty _ date)). cbn [orb].
    unfold restore_command. cbv zeta. rewrite ran. reflexivity.
Qed.

Lemma RestoreSave_keeps_whitespace_witness :
  RestoreSave Demo.host Demo.monitor (Demo.request " " "  ") (start_state Demo.w0)
  = (Returned tt,
     {| world := Demo.ran Demo.w0;
        calls := [CallCombinedOutput (Command "/srv/restore.sh" [" "; "  "])];
        rendered := [NewResponse true (VString "restoring     ")] |})
  /\ RestoreSave Demo.host Demo.monitor (Demo.request "Alice" " ") (start_state Demo.w0)
     = (Returned tt,
        {| world := Demo.ran Demo.w0;
           calls := [CallCombinedOutput (Command "/srv/restore.sh" ["alice"; " "])];
           rendered := [NewResponse true (VString "restoring alice  ")] |}).
Proof.
  split.
  - apply (proj1 (proj2 (RestoreSave_keeps_whitespace Demo.host Demo.monitor
                           (Demo.request " " "  ") (start_state Demo.w0)))
             "restoring     " None (Demo.ran Demo.w0)).
    + vm_compute. reflexivity.
    + vm_compute. discriminate.
    + vm_compute. reflexivity.
  - apply (proj2 (proj2 (RestoreSave_keeps_whitespace Demo.host Demo.monitor
                           (Demo.request "Alice" " ") (start_state Demo.w0)))
             "restoring alice  " None (Demo.ran Demo.w0)).
    + vm_compute. discriminate.
    + vm_compute. reflexivity.
    + vm_compute. reflexivity.
Defined.

(** *** Commit *)

(** C6. When Commit fails it renders [{success=false, message="Failed
    to <stage> (<error>)"}] with the stage that failed: "open git repo"
    when the repository cannot be opened, "get HEAD ref" when HEAD
    cannot be resolved, "get HEAD commit" when the commit object cannot
    be loaded.  The calls made stop at the failing stage: the later
    stages are not attempted. *)
Theorem Commit_failure_names_stage {World Repository Time}
    (host : Host World Repository Time) (m : Monitor) (st : State World) :
  let w := world st in
  let dir := GitDir (Conf m) in
  (forall e,
      git_PlainOpen host dir w = inr e ->
      Commit host m st
      = (Returned tt,
         {| world := w;
            calls := calls st ++ [CallPlainOpen dir];
            rendered := rendered st ++ [
              {| Success := false;
                 Message := VString ("Failed to open git repo (" ++ Error e ++ ")") |}] |}))
  /\ (forall repo e,
        git_PlainOpen host dir w = inl repo ->
        git_Head host repo w = inr e ->
        Commit host m st
        = (Returned tt,
           {| world := w;
              calls := calls st ++ [CallPlainOpen dir; CallHead];
              rendered := rendered st ++ [
                {| Success := false;
                   Message := VString ("Failed to get HEAD ref (" ++ Error e ++ ")") |}] |}))
  /\ (forall repo head e,
        git_PlainOpen host dir w = inl repo ->
        git_Head host repo w = inl head ->
        git_CommitObject host repo (Plumbing.Target head) w = inr e ->
        Commit host m st
        = (Returned tt,
           {| world := w;
              calls := calls st ++ [CallPlainOpen dir; CallHead;
                                    CallCommitObject (Plumbing.Target head)];
              rendered := rendered st ++ [
                {| Success := false;
                   Message := VString ("Failed to get HEAD commit (" ++ Error e ++ ")") |}] |})).
Proof.
  cbv zeta. repeat split.
  - intros e opened. rewrite Commit_run. cbv zeta. rewrite opened. reflexivity.
  - intros repo e opened resolved. rewrite Commit_run. cbv zeta.
    rewrite opened, resolved. reflexivity.
  - intros repo head e opened resolved loaded. rewrite Commit_run. cbv zeta.
    rewrite opened, resolved, loaded. reflexivity.
Qed.

Lemma Commit_failure_names_stage_witness :
  reply (Commit Demo.host Demo.monitor) Demo.w_no_repo
  = (Returned tt,
     [{| Success := false;
         Message := VString "Failed to open git repo (repository does not exist)" |}])
  /\ reply (Commit Demo.host Demo.monitor) Demo.w_no_head
     = (Returned tt,
        [{| Success := false;
            Message := VString "Failed to get HEAD ref (reference not found)" |}])
  /\ reply (Commit Demo.host Demo.monitor) Demo.w_no_object
     = (Returned tt,
        [{| Success := false;
            Message := VString "Failed to get HEAD commit (object not found)" |}]).
Proof.
  unfold reply. split; [| split].
  - rewrite (proj1 (Commit_failure_names_stage Demo.host Demo.monitor
                      (start_state Demo.w_no_repo))
               {| Error := "repository does not exist" |}).
    + reflexivity.
    + vm_compute. reflexivity.
  - rewrite (proj1 (proj2 (Commit_failure_names_stage Demo.host Demo.monitor
                             (start_state Demo.w_no_head)))
               tt {| Error := "reference not found" |}).
    + reflexivity.
    + vm_compute. reflexivity.
    + vm_compute. reflexivity.
  - rewrite (proj2 (proj2 (Commit_failure_names_stage Demo.host Demo.monitor
                             (start_state Demo.w_no_object)))
               tt {| Plumbing.Name := "HEAD"; Plumbing.Target := Demo.hash1 |}
               {| Error := "object not found" |}).
    + reflexivity.
    + vm_compute. reflexivity.
    + vm_compute. reflexivity.
    + vm_compute. reflexivity.
Defined.

(** C3, as it holds.  When the three stages succeed, Commit renders
    [success=true] with a record whose [message] is the text before
    the first line break of the commit message after the whole message
    has been trimmed of surrounding white space (a prefix of the
    trimmed message, with no line break in it, followed there by
    nothing or by a line break), and whose [sha] is the hash of the
    loaded commit printed in full: 40 lower-case hexadecimal digits. *)
Theorem Commit_reports_summary_and_hash {World Repository Time}
    (host : Host World Repository Time) (m : Monitor) (st : State World)
    (repo : Repository) (head : Plumbing.Reference) (commit : Object.Commit Time) :
  git_PlainOpen host (GitDir (Conf m)) (world st) = inl repo ->
  git_Head host repo (world st) = inl head ->
  git_CommitObject host repo (Plumbing.Target head) (world st) = inl commit ->
  let trimmed := Strings.TrimSpace (unicode_trim host) (Object.Message commit) in
  let sha := Plumbing.String_ (Object.Hash commit) in
  exists (info : gmap string string) (summary : string),
    Commit host m st
    = (Returned tt,
       {| world := world st;
          calls := calls st ++ [CallPlainOpen (GitDir (Conf m)); CallHead;
                                CallCommitObject (Plumbing.Target head)];
          rendered := rendered st ++ [{| Success := true; Message := VStringMap info |}] |})
    /\ info !! "message" = Some summary
    /\ summary = first_line trimmed
    /\ (exists rest,
          trimmed = summary ++ rest
          /\ (rest = EmptyString \/ exists rest', rest = LF ++ rest'))
    /\ Forall (fun c => c <> Ascii.ascii_of_N 10) (list_ascii_of_string summary)
    /\ info !! "sha" = Some sha
    /\ String.length sha = 40
    /\ forallb lower_hex (list_ascii_of_string sha) = true.
Proof.
  intros opened resolved loaded trimmed sha.
  exists (commit_info host commit), (first_line trimmed).
  split.
  { rewrite Commit_run. cbv zeta. rewrite opened, resolved, loaded. reflexivity. }
  split; [unfold commit_info; apply lookup_insert_eq|].
  split; [reflexivity|].
  split; [apply first_line_prefix|].
  split; [apply first_line_no_break|].
  split.
  { unfold commit_info.
    rewrite lookup_insert_ne by discriminate.
    rewrite lookup_insert_ne by discriminate.
    apply lookup_singleton_eq. }
  apply Hash_String_full.
Qed.

Lemma Commit_reports_summary_and_hash_witness :
  exists info : gmap string string,
    Commit Demo.host Demo.monitor (start_state Demo.w0)
    = (Returned tt,
       {| world := Demo.w0;
          calls := [CallPlainOpen "/srv/game"; CallHead; CallCommitObject Demo.hash1];
          rendered := [{| Success := true; Message := VStringMap info |}] |})
    /\ info !! "message" = Some "Fix bug"
    /\ info !! "sha" = Some "9f86d081884c7d659a2feaa0c55ad015a3bf4f1b".
Proof.
  destruct (Commit_reports_summary_and_hash Demo.host Demo.monitor (start_state Demo.w0)
              tt {| Plumbing.Name := "HEAD"; Plumbing.Target := Demo.hash1 |}
              (Demo.commit_with ("Fix bug" ++ LF ++ LF ++ "Longer body text"))
              eq_refl eq_refl eq_refl)
    as (info & summary & ran & found & -> & _ & _ & sha & _).
  exists info. split; [exact ran | split; [exact found | exact sha]].
Defined.

(** C3 as the specification words it fails: for a commit message whose
    first line ends in a space, Commit reports that line with its
    trailing space, where the text before the first line break with
    surrounding white space trimmed has none. *)
Lemma Commit_summary_not_trimmed_line :
  exists info : gmap string string,
    reply (Commit Demo.host Demo.monitor) Demo.w_trailing
    = (Returned tt, [{| Success := true; Message := VStringMap info |}])
    /\ info !! "message" = Some "Fix bug "
    /\ spec_summary (unicode_trim Demo.host) Demo.trailing_space_message = "Fix bug"
    /\ info !! "message"
       <> Some (spec_summary (unicode_trim Demo.host) Demo.trailing_space_message).
Proof.
  exists (commit_info Demo.host (Demo.commit_with Demo.trailing_space_message)).
  split; [| split; [| split]].
  - unfold reply. rewrite Commit_run. reflexivity.
  - reflexivity.
  - reflexivity.
  - vm_compute. discriminate.
Qed.

(** *** IsRunning *)

(** C2 as stated fails: the provider may answer without error and
    without a state record; IsRunning then panics on reading
    [info.State.Running] and renders no envelope at all. *)
Lemma IsRunning_no_envelope_without_state :
  docker_ContainerInspect Demo.host "game" Demo.w_bare = inl Demo.bare_info
  /\ IsRunning Demo.host Demo.monitor (start_state Demo.w_bare)
     = (Panicked nil_dereference,
        {| world := Demo.w_bare;
           calls := [CallContainerInspect "game"];
           rendered := [] |})
  /\ ~ (exists b : bool,
          reply (IsRunning Demo.host Demo.monitor) Demo.w_bare
          = (Returned tt, [{| Success := true; Message := VBool b |}])).
Proof.
  split; [reflexivity|]. split; [reflexivity|].
  intros [b answered]. vm_compute in answered. discriminate.
Qed.

(** C2, as it holds.  For every answer of the container query that is
    an error or carries a state record, IsRunning renders
    [{success=true, message=<boolean>}]; the boolean is [true] exactly
    when the provider returned without error and the state reports
    running, and it is [false] when the provider returned an error,
    which is not surfaced in any other way. *)
Theorem IsRunning_envelope {World Repository Time}
    (host : Host World Repository Time) (m : Monitor) (st : State World) :
  let container := Container (Conf m) in
  let inspected := docker_ContainerInspect host container (world st) in
  state_readable inspected = true ->
  IsRunning host m st
  = (Returned tt,
     {| world := world st;
        calls := calls st ++ [CallContainerInspect container];
        rendered := rendered st ++ [{| Success := true;
                                       Message := VBool (reports_running inspected) |}] |})
  /\ (reports_running inspected = true
      <-> exists info base state,
            inspected = inl info
            /\ Types.Base info = Some base
            /\ Types.State base = Some state
            /\ Types.Running state = true)
  /\ (forall e, inspected = inr e -> reports_running inspected = false).
Proof.
  cbv zeta. intros readable. split; [| split].
  - rewrite IsRunning_run. cbv zeta. rewrite readable. reflexivity.
  - split.
    + destruct (docker_ContainerInspect host (Container (Conf m)) (world st))
        as [[[[id [state|]]|]]|e]; cbn [reports_running]; try discriminate.
      intros running.
      exists {| Types.Base := Some {| Types.ID := id; Types.State := Some state |} |}.
      exists {| Types.ID := id; Types.State := Some state |}.
      exists state. repeat split. exact running.
    + intros (info & base & state & -> & b & s & running).
      destruct info as [base']. cbn in b. subst base'.
      destruct base as [id state']. cbn in s. subst state'.
      exact running.
  - intros e failed. rewrite failed. reflexivity.
Qed.

Lemma IsRunning_envelope_witness :
  IsRunning Demo.host Demo.monitor (start_state Demo.w0)
  = (Returned tt,
     {| world := Demo.w0;
        calls := [CallContainerInspect "game"];
        rendered := [{| Success := true; Message := VBool true |}] |})
  /\ IsRunning Demo.host Demo.monitor
       (start_state (Demo.with_containers {[ "game" := Demo.running_info false ]} Demo.w0))
     = (Returned tt,
        {| world := Demo.with_containers {[ "game" := Demo.running_info false ]} Demo.w0;
           calls := [CallContainerInspect "game"];
           rendered := [{| Success := true; Message := VBool false |}] |})
  /\ IsRunning Demo.host Demo.monitor (start_state (Demo.with_containers ∅ Demo.w0))
     = (Returned tt,
        {| world := Demo.with_containers ∅ Demo.w0;
           calls := [CallContainerInspect "game"];
           rendered := [{| Success := true; Message := VBool false |}] |}).
Proof.
  split; [| split].
  - refine (proj1 (IsRunning_envelope Demo.host Demo.monitor (start_state Demo.w0) _)).
    vm_compute. reflexivity.
  - refine (proj1 (IsRunning_envelope Demo.host Demo.monitor
                     (start_state
                        (Demo.with_containers {[ "game" := Demo.running_info false ]}
                           Demo.w0)) _)).
    vm_compute. reflexivity.
  - refine (proj1 (IsRunning_envelope Demo.host Demo.monitor
                     (start_state (Demo.with_containers ∅ Demo.w0)) _)).
    vm_compute. reflexivity.
Defined.

(** C10. IsRunning reads the running flag through the state record
    without checking that it is there.  After an error of the query the
    read is not reached and the handler returns; after a successful
    query the handler returns when the state record is present, and
    panics on a nil dereference, rendering nothing, when the base
    record or its state pointer is nil.  So the handler is safe exactly
    when every successful inspection carries a state record. *)
Theorem IsRunning_reads_state_unchecked {World Repository Time}
    (host : Host World Repository Time) (m : Monitor) (st : State World) :
  let container := Container (Conf m) in
  let inspected := docker_ContainerInspect host container (world st) in
  (forall e, inspected = inr e -> IsReturned (fst (IsRunning host m st)) = true)
  /\ (forall info base state,
        inspected = inl info -> Types.Base info = Some base ->
        Types.State base = Some state ->
        IsReturned (fst (IsRunning host m st)) = true)
  /\ (forall info,
        inspected = inl info ->
        Types.Base info = None
        \/ (exists base, Types.Base info = Some base /\ Types.State base = None) ->
        IsRunning host m st
        = (Panicked nil_dereference,
           {| world := world st;
              calls := calls st ++ [CallContainerInspect container];
              rendered := rendered st |})).
Proof.
  cbv zeta. rewrite IsRunning_run. cbv zeta. repeat split.
  - intros e ->. reflexivity.
  - intros info base state -> b s. cbn [state_readable]. rewrite b, s. reflexivity.
  - intros info -> [b | (base & b & s)]; cbn [state_readable]; rewrite b; [reflexivity|].
    rewrite s. reflexivity.
Qed.

Lemma IsRunning_reads_state_unchecked_witness :
  IsRunning Demo.host Demo.monitor
    (start_state (Demo.with_containers {[ "game" := Demo.stateless_info ]} Demo.w0))
  = (Panicked nil_dereference,
     {| world := Demo.with_containers {[ "game" := Demo.stateless_info ]} Demo.w0;
        calls := [CallContainerInspect "game"];
        rendered := [] |})
  /\ IsReturned (fst (IsRunning Demo.host Demo.monitor
                        (start_state (Demo.with_containers ∅ Demo.w0)))) = true.
Proof.
  split.
  - apply (proj2 (proj2 (IsRunning_reads_state_unchecked Demo.host Demo.monitor
             (start_state (Demo.with_containers {[ "game" := Demo.stateless_info ]} Demo.w0))))
             Demo.stateless_info).
    + vm_compute. reflexivity.
    + right. eexists. split; reflexivity.
  - apply (proj1 (IsRunning_reads_state_unchecked Demo.host Demo.monitor
             (start_state (Demo.with_containers ∅ Demo.w0)))
             {| Error := "Error: No such container: game" |}).
    vm_compute. reflexivity.
Defined.

(** *** All operations *)

Section Envelopes.

Context {World Repository Time : Type}.
Variable host : Host World Repository Time.
Variable m : Monitor.

Lemma diagnostic_success (message : any) : diagnostic (NewResponse true message).
Proof. intros failed. discriminate failed. Qed.

Lemma diagnostic_string (success : bool) (s : string) :
  diagnostic (NewResponse success (VString s)).
Proof. intros _. exists s. reflexivity. Qed.

Lemma done_with_diagnostic (st : State World) (w' : World) (cs : list Call)
    (v : Response) :
  Forall diagnostic (rendered st) -> diagnostic v ->
  Forall diagnostic (rendered (snd (done_with st w' cs v))).
Proof.
  intros before new. cbn. apply Forall_app. split; [exact before|].
  constructor; [exact new | constructor].
Qed.

Create HintDb envelope.
#[local] Hint Resolve diagnostic_success diagnostic_string done_with_diagnostic : envelope.

Lemma lifecycle_diagnostic (a : lifecycle) (st : State World) :
  Forall diagnostic (rendered st) ->
  Forall diagnostic (rendered (snd (lifecycle_handler a host m st))).
Proof.
  intros before. rewrite lifecycle_run. cbv zeta.
  destruct (exec_Run host _ (world st)) as [[e|] w']; auto with envelope.
Qed.

Lemma RestoreSave_diagnostic (r : Request) (st : State World) :
  Forall diagnostic (rendered st) ->
  Forall diagnostic (rendered (snd (RestoreSave host m r st))).
Proof.
  intros before. rewrite RestoreSave_run.
  destruct (_ || _).
  - apply (done_with_diagnostic st (world st) []); auto with envelope.
  - cbv zeta.
    destruct (exec_CombinedOutput host _ (world st)) as [[out [e|]] w'];
      auto with envelope.
Qed.

Lemma Commit_diagnostic (st : State World) :
  Forall diagnostic (rendered st) ->
  Forall diagnostic (rendered (snd (Commit host m st))).
Proof.
  intros before. rewrite Commit_run. cbv zeta.
  destruct (git_PlainOpen host _ (world st)) as [repo|e]; [| auto with envelope].
  destruct (git_Head host repo (world st)) as [head|e]; [| auto with envelope].
  destruct (git_CommitObject host repo _ (world st)) as [commit|e]; auto with envelope.
Qed.

Lemma IsRunning_diagnostic (st : State World) :
  Forall diagnostic (rendered st) ->
  Forall diagnostic (rendered (snd (IsRunning host m st))).
Proof.
  intros before. rewrite IsRunning_run. cbv zeta.
  destruct (state_readable _); [auto with envelope | exact before].
Qed.

(** Commit and IsRunning leave the world as it is, and what they
    answer does not depend on what was called or rendered before. *)
Lemma Commit_reads_only (st : State World) :
  world (snd (Commit host m st)) = world st
  /\ fst (Commit host m st) = fst (reply (Commit host m) (world st))
  /\ rendered (snd (Commit host m st))
     = (rendered st ++ snd (reply (Commit host m) (world st)))%list.
Proof.
  unfold reply. rewrite !Commit_run. cbv zeta. cbn [world start_state].
  destruct (git_PlainOpen host _ (world st)) as [repo|e]; [| repeat split].
  destruct (git_Head host repo (world st)) as [head|e]; [| repeat split].
  destruct (git_CommitObject host repo _ (world st)) as [commit|e]; repeat split.
Qed.

Lemma IsRunning_reads_only (st : State World) :
  world (snd (IsRunning host m st)) = world st
  /\ fst (IsRunning host m st) = fst (reply (IsRunning host m) (world st))
  /\ rendered (snd (IsRunning host m st))
     = (rendered st ++ snd (reply (IsRunning host m) (world st)))%list.
Proof.
  unfold reply. rewrite !IsRunning_run. cbv zeta. cbn [world start_state].
  destruct (state_readable _); repeat split.
  cbn. rewrite app_nil_r. reflexivity.
Qed.

Lemma Commit_reply_same (w1 w2 : World) :
  same_repository host w1 w2 ->
  reply (Commit host m) w1 = reply (Commit host m) w2.
Proof.
  intros (opened & resolved & loaded).
  unfold reply. rewrite !Commit_run. cbv zeta. cbn [world start_state].
  rewrite opened.
  destruct (git_PlainOpen host _ w2) as [repo|e]; [| reflexivity].
  rewrite resolved.
  destruct (git_Head host repo w2) as [head|e]; [| reflexivity].
  rewrite loaded.
  destruct (git_CommitObject host repo _ w2) as [commit|e]; reflexivity.
Qed.

Lemma IsRunning_reply_same (w1 w2 : World) :
  same_container host (Container (Conf m)) w1 w2 ->
  reply (IsRunning host m) w1 = reply (IsRunning host m) w2.
Proof.
  unfold same_container. intros same.
  unfold reply. rewrite !IsRunning_run. cbv zeta. cbn [world start_state].
  rewrite same.
  destruct (state_readable _); reflexivity.
Qed.

End Envelopes.

(** C7. Whatever operation runs (Start, Stop, Update, RestoreSave,
    Commit, IsRunning), every envelope it renders with [success=false]
    has a string as its message, never a boolean or a record: the
    property holds of the rendered envelopes after the operation when
    it held before. *)
Theorem failure_carries_string {World Repository Time}
    (host : Host World Repository Time) (m : Monitor) (op : operation)
    (st : State World) :
  Forall diagnostic (rendered st) ->
  Forall diagnostic (rendered (snd (handle host m op st))).
Proof.
  destruct op as [| | | r | |]; cbn [handle].
  - apply (lifecycle_diagnostic host m DoStart).
  - apply (lifecycle_diagnostic host m DoStop).
  - apply (lifecycle_diagnostic host m DoUpdate).
  - apply RestoreSave_diagnostic.
  - apply Commit_diagnostic.
  - apply IsRunning_diagnostic.
Qed.

Lemma failure_carries_string_witness :
  Forall diagnostic
    [NewResponse false (VString "Server failed to stop (exit status 1)");
     NewResponse false (VString "Failed to open git repo (repository does not exist)")].
Proof.
  apply (failure_carries_string Demo.host Demo.monitor OpCommit
           (snd (handle Demo.host Demo.monitor OpStop (start_state Demo.w_no_repo)))).
  apply (failure_carries_string Demo.host Demo.monitor OpStop (start_state Demo.w_no_repo)).
  constructor.
Defined.

(** C8. The read operations are functions of the backing state and the
    configuration.  Commit gives the same reply (outcome and envelope)
    in two worlds with the same repository state, IsRunning in two
    worlds with the same container status; neither changes the world,
    and neither depends on the calls made or envelopes rendered before,
    so invoking one twice in a row renders the same envelope twice. *)
Theorem read_operations_repeatable {World Repository Time}
    (host : Host World Repository Time) (m : Monitor) :
  (forall w1 w2,
      same_repository host w1 w2 ->
      reply (Commit host m) w1 = reply (Commit host m) w2)
  /\ (forall w1 w2,
        same_container host (Container (Conf m)) w1 w2 ->
        reply (IsRunning host m) w1 = reply (IsRunning host m) w2)
  /\ (forall st,
        let st1 := snd (Commit host m st) in
        let st2 := snd (Commit host m st1) in
        let e := snd (reply (Commit host m) (world st)) in
        world st2 = world st
        /\ fst (Commit host m st1) = fst (Commit host m st)
        /\ rendered st1 = (rendered st ++ e)%list
        /\ rendered st2 = (rendered st1 ++ e)%list)
  /\ (forall st,
        let st1 := snd (IsRunning host m st) in
        let st2 := snd (IsRunning host m st1) in
        let e := snd (reply (IsRunning host m) (world st)) in
        world st2 = world st
        /\ fst (IsRunning host m st1) = fst (IsRunning host m st)
        /\ rendered st1 = (rendered st ++ e)%list
        /\ rendered st2 = (rendered st1 ++ e)%list).
Proof.
  split; [exact (Commit_reply_same host m)|].
  split; [exact (IsRunning_reply_same host m)|].
  split; intros st; cbv zeta.
  - destruct (Commit_reads_only host m st) as (w1 & o1 & r1).
    destruct (Commit_reads_only host m (snd (Commit host m st))) as (w2 & o2 & r2).
    rewrite w1 in *. repeat split; congruence.
  - destruct (IsRunning_reads_only host m st) as (w1 & o1 & r1).
    destruct (IsRunning_reads_only host m (snd (IsRunning host m st))) as (w2 & o2 & r2).
    rewrite w1 in *. repeat split; congruence.
Qed.

Lemma read_operations_repeatable_witness :
  reply (Commit Demo.host Demo.monitor) Demo.w0
  = reply (Commit Demo.host Demo.monitor) (Demo.ran Demo.w0)
  /\ reply (IsRunning Demo.host Demo.monitor) Demo.w0
     = reply (IsRunning Demo.host Demo.monitor) (Demo.ran Demo.w0).
Proof.
  split.
  - apply (proj1 (read_operations_repeatable Demo.host Demo.monitor)).
    split; [| split]; intros; reflexivity.
  - apply (proj1 (proj2 (read_operations_repeatable Demo.host Demo.monitor))).
    reflexivity.
Defined.

(** * Further properties of the handlers *)

(** Case analysis on the operation and on what the collaborators
    answer, from the run lemmas above. *)
Ltac by_operation host m op st :=
  destruct op as [| | | ? | |]; cbn [handle runs_script];
  [ change (Start host m st) with (lifecycle_handler DoStart host m st);
    rewrite lifecycle_run
  | change (Stop host m st) with (lifecycle_handler DoStop host m st);
    rewrite lifecycle_run
  | change (Update host m st) with (lifecycle_handler DoUpdate host m st);
    rewrite lifecycle_run
  | rewrite RestoreSave_run
  | rewrite Commit_run
  | rewrite IsRunning_run ];
  cbv zeta.

Ltac by_answers :=
  repeat match goal with
    | |- context [exec_Run ?h ?c ?w] => destruct (exec_Run h c w) as [[?|] ?]
    | |- context [exec_CombinedOutput ?h ?c ?w] =>
        destruct (exec_CombinedOutput h c w) as [[? [?|]] ?]
    | |- context [git_PlainOpen ?h ?d ?w] => destruct (git_PlainOpen h d w)
    | |- context [git_Head ?h ?r ?w] => destruct (git_Head h r w)
    | |- context [git_CommitObject ?h ?r ?x ?w] => destruct (git_CommitObject h r x w)
    | |- context [state_readable ?i] => destruct (state_readable i)
    | |- context [orb ?a ?b] => destruct (orb a b)
    end;
  unfold done_with, invalid_request; cbn [fst snd world calls rendered IsReturned].

(** X1. IsRunning is the only handler that can panic: Start, Stop,
    Update, RestoreSave and Commit run to their end whatever the
    collaborators answer (in Commit the index [[0]] into the split
    message is always in range). *)
Theorem only_IsRunning_panics {World Repository Time}
    (host : Host World Repository Time) (m : Monitor) (op : operation)
    (st : State World) :
  op <> OpIsRunning ->
  fst (handle host m op st) = Returned tt.
Proof.
  intros other.
  by_operation host m op st; by_answers; try reflexivity.
  all: contradiction other; reflexivity.
Qed.

Lemma only_IsRunning_panics_witness :
  fst (handle Demo.host Demo.monitor OpCommit (start_state Demo.w_trailing)) = Returned tt
  /\ fst (handle Demo.host Demo.monitor (OpRestoreSave (Demo.request "" ""))
            (start_state Demo.w_bare)) = Returned tt.
Proof.
  split.
  - apply (only_IsRunning_panics Demo.host Demo.monitor OpCommit
             (start_state Demo.w_trailing)).
    discriminate.
  - apply (only_IsRunning_panics Demo.host Demo.monitor
             (OpRestoreSave (Demo.request "" "")) (start_state Demo.w_bare)).
    discriminate.
Defined.

(** X2. A handler that runs to its end has rendered exactly one
    envelope (the early return of RestoreSave keeps it from rendering
    a second one); a handler that panics has rendered none. *)
Theorem one_envelope_per_request {World Repository Time}
    (host : Host World Repository Time) (m : Monitor) (op : operation)
    (st : State World) :
  exists vs : list Response,
    rendered (snd (handle host m op st)) = (rendered st ++ vs)%list
    /\ length vs = if IsReturned (fst (handle host m op st)) then 1 else 0.
Proof.
  by_operation host m op st; by_answers;
    try (eexists [_]; split; reflexivity).
  exists []. split; [symmetry; apply app_nil_r | reflexivity].
Qed.

(** X3. The script operations talk to the runner only, and at most
    once; Commit and IsRunning never invoke the runner: they make at
    most three calls, all of them queries, and leave the world as it
    was. *)
Theorem call_discipline {World Repository Time}
    (host : Host World Repository Time) (m : Monitor) (op : operation)
    (st : State World) :
  exists cs : list Call,
    calls (snd (handle host m op st)) = (calls st ++ cs)%list
    /\ if runs_script op
       then forallb is_runner_call cs = true /\ length cs <= 1
       else forallb (fun c => negb (is_runner_call c)) cs = true
            /\ length cs <= 3
            /\ world (snd (handle host m op st)) = world st.
Proof.
  by_operation host m op st; by_answers.
  all: try (eexists [_]; split; [reflexivity | cbn; repeat split; lia]).
  all: try (eexists [_; _]; split; [reflexivity | cbn; repeat split; lia]).
  all: try (eexists [_; _; _]; split; [reflexivity | cbn; repeat split; lia]).
  all: exists []; split; [symmetry; apply app_nil_r | cbn; repeat split; lia].
Qed.

(** X4. Commit reports success exactly when the repository opens, HEAD
    resolves and the commit object loads: once the commit is loaded
    nothing (a blank message, an odd time) can make it fail. *)
Theorem Commit_succeeds_iff_stages {World Repository Time}
    (host : Host World Repository Time) (m : Monitor) (st : State World) :
  exists v : Response,
    rendered (snd (Commit host m st)) = (rendered st ++ [v])%list
    /\ (Success v = true
        <-> exists repo head commit,
              git_PlainOpen host (GitDir (Conf m)) (world st) = inl repo
              /\ git_Head host repo (world st) = inl head
              /\ git_CommitObject host repo (Plumbing.Target head) (world st)
                 = inl commit).
Proof.
  rewrite Commit_run. cbv zeta.
  destruct (git_PlainOpen host _ (world st)) as [repo|e].
  2: { eexists. split; [reflexivity|]. split; [discriminate|].
       intros (? & ? & ? & opened & _). discriminate opened. }
  destruct (git_Head host repo (world st)) as [head|e] eqn:resolved.
  2: { eexists. split; [reflexivity|]. split; [discriminate|].
       intros (repo' & ? & ? & opened & resolved' & _).
       injection opened as <-. congruence. }
  destruct (git_CommitObject host repo _ (world st)) as [commit|e] eqn:loaded.
  - eexists. split; [reflexivity|]. split; [| reflexivity].
    intros _. exists repo, head, commit. repeat split; assumption.
  - eexists. split; [reflexivity|]. split; [discriminate|].
    intros (repo' & head' & ? & opened & resolved' & loaded').
    injection opened as <-. rewrite resolved in resolved'.
    injection resolved' as <-. congruence.
Qed.

Lemma Commit_succeeds_iff_stages_witness :
  exists v : Response,
    rendered (snd (Commit Demo.host Demo.monitor (start_state Demo.w0))) = [v]
    /\ Success v = true.
Proof.
  destruct (Commit_succeeds_iff_stages Demo.host Demo.monitor (start_state Demo.w0))
    as (v & ran & stages).
  exists v. split; [exact ran|]. apply stages.
  exists tt, {| Plumbing.Name := "HEAD"; Plumbing.Target := Demo.hash1 |},
    (Demo.commit_with ("Fix bug" ++ LF ++ LF ++ "Longer body text")).
  repeat split.
Defined.

(** X5. The record of a successful Commit has exactly the three keys
    [message], [date] and [sha], and its [date] is the time of the
    committer (not of the author) in the layout
    ["Mon Jan 02 15:04:05 2006 -0700"]. *)
Theorem Commit_record_keys {World Repository Time}
    (host : Host World Repository Time) (m : Monitor) (st : State World)
    (repo : Repository) (head : Plumbing.Reference) (commit : Object.Commit Time) :
  git_PlainOpen host (GitDir (Conf m)) (world st) = inl repo ->
  git_Head host repo (world st) = inl head ->
  git_CommitObject host repo (Plumbing.Target head) (world st) = inl commit ->
  exists info : gmap string string,
    rendered (snd (Commit host m st))
    = (rendered st ++ [{| Success := true; Message := VStringMap info |}])%list
    /\ dom info = ({[ "message"; "date"; "sha" ]} : gset string)
    /\ info !! "date"
       = Some (time_Format host (Object.When (Object.Committer commit))
                 "Mon Jan 02 15:04:05 2006 -0700").
Proof.
  intros opened resolved loaded.
  exists (commit_info host commit). split; [| split].
  - rewrite Commit_run. cbv zeta. rewrite opened, resolved, loaded. reflexivity.
  - unfold commit_info. rewrite !dom_insert_L, dom_singleton_L. set_solver.
  - unfold commit_info. rewrite lookup_insert_ne by discriminate.
    apply lookup_insert_eq.
Qed.

Lemma Commit_record_keys_witness :
  exists info : gmap string string,
    rendered (snd (Commit DemoWeb.clock_host Demo.monitor (start_state tt)))
    = [{| Success := true; Message := VStringMap info |}]
    /\ dom info = ({[ "message"; "date"; "sha" ]} : gset string)
    /\ info !! "date" = Some "Tue Oct 29 08:00:00 2019 +0000".
Proof.
  exact (Commit_record_keys DemoWeb.clock_host Demo.monitor (start_state tt)
           tt {| Plumbing.Name := "HEAD"; Plumbing.Target := Demo.hash1 |}
           DemoWeb.picked_commit eq_refl eq_refl eq_refl).
Defined.

(** ** Lower-casing of the key *)

Lemma lower_byte_idempotent (c : ascii) :
  Strings.lower_byte (Strings.lower_byte c) = Strings.lower_byte c.
Proof. destruct c as [[] [] [] [] [] [] [] []]; reflexivity. Qed.

Lemma lower_byte_not_upper (c : ascii) : is_upper (Strings.lower_byte c) = false.
Proof. destruct c as [[] [] [] [] [] [] [] []]; reflexivity. Qed.

Lemma lower_byte_ascii (c : ascii) :
  (Strings.byte_val (Strings.lower_byte c) <? Strings.RuneSelf)%N
  = (Strings.byte_val c <? Strings.RuneSelf)%N.
Proof. destruct c as [[] [] [] [] [] [] [] []]; reflexivity. Qed.

Lemma lowered_isASCII (s : string) :
  Strings.isASCII (Strings.map_bytes Strings.lower_byte s) = Strings.isASCII s.
Proof.
  induction s as [|c s IH]; [reflexivity|].
  cbn [Strings.map_bytes Strings.isASCII]. rewrite lower_byte_ascii, IH. reflexivity.
Qed.

Lemma lowered_no_upper (s : string) :
  forallb (fun c => negb (is_upper c))
    (list_ascii_of_string (Strings.map_bytes Strings.lower_byte s)) = true.
Proof.
  induction s as [|c s IH]; [reflexivity|].
  cbn [Strings.map_bytes list_ascii_of_string forallb].
  rewrite lower_byte_not_upper, IH. reflexivity.
Qed.

Lemma lowered_idempotent (s : string) :
  Strings.map_bytes Strings.lower_byte (Strings.map_bytes Strings.lower_byte s)
  = Strings.map_bytes Strings.lower_byte s.
Proof.
  induction s as [|c s IH]; [reflexivity|].
  cbn [Strings.map_bytes]. rewrite lower_byte_idempotent, IH. reflexivity.
Qed.

(** X6. For an ASCII [ckey] RestoreSave does not tell the cases of
    letters apart: a request and the same request with its [ckey]
    already in lower case end in the same way, and the key handed to
    the script has no upper-case ASCII letter and is itself ASCII. *)
Theorem RestoreSave_ckey_case_insensitive {World Repository Time}
    (host : Host World Repository Time) (m : Monitor) (r r' : Request)
    (st : State World) :
  Strings.isASCII (FormValue r "ckey") = true ->
  FormValue r' "ckey" = Strings.ToLower (unicode_lower host) (FormValue r "ckey") ->
  FormValue r' "date" = FormValue r "date" ->
  RestoreSave host m r' st = RestoreSave host m r st
  /\ restore_command host m r' = restore_command host m r
  /\ match arg (restore_command host m r) with
     | key :: _ =>
         forallb (fun c => negb (is_upper c)) (list_ascii_of_string key) = true
         /\ Strings.isASCII key = true
     | [] => False
     end.
Proof.
  intros plain lowered same_date.
  assert (Strings.ToLower (unicode_lower host) (FormValue r' "ckey")
          = Strings.ToLower (unicode_lower host) (FormValue r "ckey")) as again.
  { rewrite lowered. unfold Strings.ToLower. rewrite plain.
    rewrite lowered_isASCII, plain. apply lowered_idempotent. }
  split; [| split].
  - unfold RestoreSave. rewrite again, same_date. reflexivity.
  - unfold restore_command. rewrite again, same_date. reflexivity.
  - cbn [restore_command Command arg]. unfold Strings.ToLower. rewrite plain.
    split; [apply lowered_no_upper | rewrite lowered_isASCII; exact plain].
Qed.

Lemma RestoreSave_ckey_case_insensitive_witness :
  RestoreSave Demo.host Demo.monitor (Demo.request "alice" "2019-10-28")
    (start_state Demo.w0)
  = RestoreSave Demo.host Demo.monitor (Demo.request "ALice" "2019-10-28")
      (start_state Demo.w0).
Proof.
  apply (RestoreSave_ckey_case_insensitive Demo.host Demo.monitor
           (Demo.request "ALice" "2019-10-28") (Demo.request "alice" "2019-10-28")
           (start_state Demo.w0)).
  - vm_compute. reflexivity.
  - vm_compute. reflexivity.
  - vm_compute. reflexivity.
Defined.

(** ** Trimming of ASCII strings *)

Section Trimming.

#[local] Arguments String.append : simpl nomatch.

Lemma append_empty_r (s : string) : s ++ EmptyString = s.
Proof. induction s as [|c s IH]; [reflexivity|]. simpl. rewrite IH. reflexivity. Qed.

Lemma append_assoc (a b c : string) : (a ++ b) ++ c = a ++ (b ++ c).
Proof. induction a as [|x a IH]; [reflexivity|]. simpl. rewrite IH. reflexivity. Qed.

Lemma rev_app_append (s acc : string) : String.rev_app s acc = String.rev s ++ acc.
Proof.
  revert acc. induction s as [|c s IH]; intros acc; [reflexivity|].
  unfold String.rev. cbn [String.rev_app].
  rewrite (IH (String c acc)), (IH (String c EmptyString)), append_assoc.
  reflexivity.
Qed.

Lemma rev_cons (c : ascii) (s : string) :
  String.rev (String c s) = String.rev s ++ String c EmptyString.
Proof. unfold String.rev at 1. cbn [String.rev_app]. apply rev_app_append. Qed.

Lemma rev_append (a b : string) : String.rev (a ++ b) = String.rev b ++ String.rev a.
Proof.
  induction a as [|c a IH]; [symmetry; apply append_empty_r|].
  simpl. rewrite !rev_cons, IH, append_assoc. reflexivity.
Qed.

Lemma rev_involutive (s : string) : String.rev (String.rev s) = s.
Proof.
  induction s as [|c s IH]; [reflexivity|].
  rewrite rev_cons, rev_append, IH. reflexivity.
Qed.

Lemma isASCII_append (a b : string) :
  Strings.isASCII (a ++ b) = Strings.isASCII a && Strings.isASCII b.
Proof.
  induction a as [|c a IH]; [reflexivity|].
  simpl. rewrite IH. apply andb_assoc.
Qed.

Lemma isASCII_rev (s : string) : Strings.isASCII (String.rev s) = Strings.isASCII s.
Proof.
  induction s as [|c s IH]; [reflexivity|].
  rewrite rev_cons, isASCII_append, IH. cbn [Strings.isASCII].
  rewrite andb_true_r. apply andb_comm.
Qed.

Lemma RuneSelf_below (c : ascii) :
  (Strings.RuneSelf <=? Strings.byte_val c)%N
  = negb (Strings.byte_val c <? Strings.RuneSelf)%N.
Proof. rewrite N.ltb_antisym, negb_involutive. reflexivity. Qed.

(** On an ASCII string a scanning loop never falls back, and what it
    leaves is ASCII. *)
Lemma scan_space_ascii (s : string) :
  Strings.isASCII s = true ->
  Strings.scan_space s = (false, trim_left s)
  /\ Strings.isASCII (trim_left s) = true.
Proof.
  unfold trim_left. induction s as [|c s IH]; [split; reflexivity|].
  cbn [Strings.isASCII Strings.scan_space]. intros plain.
  apply andb_prop in plain as [below plain]. rewrite RuneSelf_below, below. cbn [negb].
  destruct (Strings.asciiSpace c).
  - apply IH, plain.
  - cbn [snd Strings.isASCII]. rewrite below, plain. split; reflexivity.
Qed.

Lemma trim_left_cons (c : ascii) (s : string) :
  Strings.isASCII (String c s) = true ->
  trim_left (String c s) = if Strings.asciiSpace c then trim_left s else String c s.
Proof.
  unfold trim_left. cbn [Strings.isASCII Strings.scan_space]. intros plain.
  apply andb_prop in plain as [below _]. rewrite RuneSelf_below, below. cbn [negb].
  destruct (Strings.asciiSpace c); reflexivity.
Qed.

(** The left loop over a concatenation: it goes on into the second
    part only when the first is white space throughout. *)
Lemma trim_left_append (x y : string) :
  Strings.isASCII x = true ->
  Strings.isASCII y = true ->
  trim_left (x ++ y)
  = match trim_left x with
    | EmptyString => trim_left y
    | _ => trim_left x ++ y
    end.
Proof.
  intros plain_x plain_y. induction x as [|c x IH]; [reflexivity|].
  assert (Strings.isASCII (String c x ++ y) = true) as plain.
  { rewrite isASCII_append, plain_x, plain_y. reflexivity. }
  simpl in plain |- *. rewrite (trim_left_cons c (x ++ y) plain).
  rewrite (trim_left_cons c x plain_x).
  cbn [Strings.isASCII] in plain_x. apply andb_prop in plain_x as [_ plain_x].
  destruct (Strings.asciiSpace c); [apply IH, plain_x | reflexivity].
Qed.

Lemma rev_empty (s : string) : String.rev s = EmptyString -> s = EmptyString.
Proof.
  destruct s as [|c s]; [reflexivity|]. rewrite rev_cons.
  destruct (String.rev s); discriminate.
Qed.

(** The right loop, read from the left: a byte stays unless it is a
    space with nothing but spaces after it. *)
Lemma trim_right_cons (c : ascii) (s : string) :
  Strings.isASCII (String c s) = true ->
  trim_right (String c s)
  = match trim_right s with
    | EmptyString =>
        if Strings.asciiSpace c then EmptyString else String c EmptyString
    | kept => String c kept
    end.
Proof.
  intros plain. pose proof plain as plain'.
  cbn [Strings.isASCII] in plain'. apply andb_prop in plain' as [below plain_s].
  unfold trim_right. change (snd (Strings.scan_space ?x)) with (trim_left x).
  rewrite rev_cons, trim_left_append.
  2: { rewrite isASCII_rev. exact plain_s. }
  2: { cbn [Strings.isASCII]. rewrite below. reflexivity. }
  destruct (trim_left (String.rev s)) as [|d kept] eqn:left.
  - cbn [String.rev String.rev_app].
    rewrite (trim_left_cons c EmptyString) by (cbn [Strings.isASCII]; rewrite below; reflexivity).
    destruct (Strings.asciiSpace c); reflexivity.
  - rewrite rev_append. cbn [String.rev String.rev_app String.append].
    simpl. destruct (String.rev_app kept (String d EmptyString)) eqn:back; [|reflexivity].
    apply (rev_empty (String d kept)) in back. discriminate back.
Qed.

Lemma trim_right_ascii (s : string) :
  Strings.isASCII s = true -> Strings.isASCII (trim_right s) = true.
Proof.
  intros plain. unfold trim_right. rewrite isASCII_rev.
  apply scan_space_ascii. rewrite isASCII_rev. exact plain.
Qed.

(** [TrimSpace] on an ASCII string is its two loops. *)
Lemma TrimSpace_ascii (f : string -> string) (s : string) :
  Strings.isASCII s = true ->
  Strings.TrimSpace f s = trim_right (trim_left s).
Proof.
  intros plain. unfold Strings.TrimSpace.
  destruct (scan_space_ascii s plain) as [-> plain_left].
  assert (Strings.isASCII (String.rev (trim_left s)) = true) as plain_rev
    by (rewrite isASCII_rev; exact plain_left).
  destruct (scan_space_ascii _ plain_rev) as [-> _]. reflexivity.
Qed.

End Trimming.

Section Summaries.

Lemma ink_not_LF (c : ascii) :
  Strings.asciiSpace c = false -> Ascii.eqb c (Ascii.ascii_of_N 10) = false.
Proof.
  intros ink. destruct (Ascii.eqb_spec c (Ascii.ascii_of_N 10)) as [-> |]; [|reflexivity].
  discriminate ink.
Qed.

Lemma trim_left_head (s : string) :
  Strings.isASCII s = true ->
  trim_left s = EmptyString \/ is_ink (head_byte (trim_left s)) = true.
Proof.
  induction s as [|c s IH]; intros plain; [left; reflexivity|].
  rewrite (trim_left_cons c s plain).
  cbn [Strings.isASCII] in plain. apply andb_prop in plain as [_ plain].
  destruct (Strings.asciiSpace c) eqn:space; [apply IH, plain|].
  right. cbn [head_byte is_ink]. rewrite space. reflexivity.
Qed.

Lemma trim_left_blank (s : string) :
  Strings.isASCII s = true ->
  trim_left s = EmptyString <-> all_space s = true.
Proof.
  unfold all_space. induction s as [|c s IH]; intros plain; [split; reflexivity|].
  rewrite (trim_left_cons c s plain).
  cbn [Strings.isASCII] in plain. apply andb_prop in plain as [_ plain].
  cbn [list_ascii_of_string forallb].
  destruct (Strings.asciiSpace c); [apply IH, plain|].
  split; discriminate.
Qed.

Lemma trim_left_ink (s : string) :
  Strings.isASCII s = true -> is_ink (head_byte s) = true -> trim_left s = s.
Proof.
  destruct s as [|c s]; [discriminate 2|]. intros plain ink.
  rewrite (trim_left_cons c s plain). cbn [head_byte is_ink] in ink.
  apply negb_true_iff in ink. rewrite ink. reflexivity.
Qed.

Lemma trim_right_head (s : string) :
  Strings.isASCII s = true -> is_ink (head_byte s) = true ->
  head_byte (trim_right s) = head_byte s.
Proof.
  destruct s as [|c s]; [discriminate 2|]. intros plain ink.
  rewrite (trim_right_cons c s plain). cbn [head_byte is_ink] in ink.
  apply negb_true_iff in ink. rewrite ink.
  destruct (trim_right s); reflexivity.
Qed.

Lemma first_line_head (s : string) :
  is_ink (head_byte s) = true -> head_byte (first_line s) = head_byte s.
Proof.
  destruct s as [|c s]; [discriminate 1|]. cbn [head_byte is_ink first_line].
  intros ink. apply negb_true_iff in ink. rewrite (ink_not_LF c ink). reflexivity.
Qed.

Lemma first_line_ascii (s : string) :
  Strings.isASCII s = true -> Strings.isASCII (first_line s) = true.
Proof.
  induction s as [|c s IH]; [reflexivity|]. cbn [Strings.isASCII first_line].
  intros plain. apply andb_prop in plain as [below plain].
  destruct (Ascii.eqb c (Ascii.ascii_of_N 10)); [reflexivity|].
  cbn [Strings.isASCII]. rewrite below, (IH plain). reflexivity.
Qed.

(** Trimming on the right keeps a string that ends in ink. *)
Lemma trim_right_ink (s : string) :
  Strings.isASCII s = true -> is_ink (last_byte s) = true -> trim_right s = s.
Proof.
  induction s as [|c s IH]; [discriminate 2|]. intros plain ends.
  rewrite (trim_right_cons c s plain).
  cbn [Strings.isASCII] in plain. apply andb_prop in plain as [_ plain].
  destruct s as [|d s].
  - cbn [last_byte is_ink] in ends. apply negb_true_iff in ends.
    cbn. rewrite ends. reflexivity.
  - rewrite (IH plain ends). reflexivity.
Qed.

(** Trimming on the right leaves an empty first line empty. *)
Lemma first_line_trim_right_empty (s : string) :
  Strings.isASCII s = true ->
  first_line s = EmptyString -> first_line (trim_right s) = EmptyString.
Proof.
  destruct s as [|c s]; [reflexivity|]. intros plain.
  rewrite (trim_right_cons c s plain). cbn [first_line].
  destruct (Ascii.eqb c (Ascii.ascii_of_N 10)) eqn:is_lf; [|discriminate].
  intros _. apply Ascii.eqb_eq in is_lf. subst c.
  destruct (trim_right s); reflexivity.
Qed.

(** Trimming on the right leaves a first line that ends in ink alone. *)
Lemma first_line_trim_right (s : string) :
  Strings.isASCII s = true ->
  is_ink (last_byte (first_line s)) = true ->
  first_line (trim_right s) = first_line s.
Proof.
  induction s as [|c s IH]; [discriminate 2|]. intros plain.
  rewrite (trim_right_cons c s plain).
  cbn [Strings.isASCII] in plain. apply andb_prop in plain as [_ plain].
  cbn [first_line].
  destruct (Ascii.eqb c (Ascii.ascii_of_N 10)) eqn:is_lf; [discriminate 1|].
  destruct (first_line s) as [|d line] eqn:line_s.
  - cbn [last_byte is_ink]. intros ink. apply negb_true_iff in ink.
    pose proof (first_line_trim_right_empty s plain line_s) as empty.
    destruct (trim_right s) as [|e kept].
    + rewrite ink. cbn [first_line]. rewrite is_lf. reflexivity.
    + cbn [first_line] in empty |- *. rewrite is_lf, empty. reflexivity.
  - intros ends. change (last_byte (String c (String d line)))
      with (last_byte (String d line)) in ends.
    specialize (IH plain ends).
    destruct (trim_right s) as [|e kept]; [discriminate IH|].
    cbn [first_line]. rewrite is_lf. cbn [first_line] in IH. rewrite IH. reflexivity.
Qed.

End Summaries.

(** X7. For a commit whose message is ASCII, the summary Commit
    reports never starts with white space, and it is empty exactly
    when the message is blank (empty or white space only). *)
Theorem Commit_summary_starts_with_ink {World Repository Time}
    (host : Host World Repository Time) (m : Monitor) (st : State World)
    (repo : Repository) (head : Plumbing.Reference) (commit : Object.Commit Time) :
  git_PlainOpen host (GitDir (Conf m)) (world st) = inl repo ->
  git_Head host repo (world st) = inl head ->
  git_CommitObject host repo (Plumbing.Target head) (world st) = inl commit ->
  Strings.isASCII (Object.Message commit) = true ->
  exists (info : gmap string string) (summary : string),
    rendered (snd (Commit host m st))
    = (rendered st ++ [{| Success := true; Message := VStringMap info |}])%list
    /\ info !! "message" = Some summary
    /\ (summary = EmptyString \/ is_ink (head_byte summary) = true)
    /\ (summary = EmptyString <-> all_space (Object.Message commit) = true).
Proof.
  intros opened resolved loaded plain.
  exists (commit_info host commit). eexists. split; [| split].
  { rewrite Commit_run. cbv zeta. rewrite opened, resolved, loaded. reflexivity. }
  { unfold commit_info. apply lookup_insert_eq. }
  rewrite (TrimSpace_ascii _ _ plain).
  destruct (scan_space_ascii _ plain) as [_ plain_left].
  pose proof (trim_left_blank _ plain) as blank.
  destruct (trim_left_head _ plain) as [empty | ink].
  - rewrite empty. split; [left; reflexivity|].
    split; intros _; [apply blank, empty | reflexivity].
  - pose proof (trim_right_head _ plain_left ink) as same_head.
    assert (is_ink (head_byte (trim_right (trim_left (Object.Message commit)))) = true)
      as ink_kept by (rewrite same_head; exact ink).
    pose proof (first_line_head _ ink_kept) as line_head.
    assert (is_ink (head_byte (first_line
              (trim_right (trim_left (Object.Message commit))))) = true) as ink_line
      by (rewrite line_head; exact ink_kept).
    split; [right; exact ink_line|].
    split.
    + intros empty. rewrite empty in ink_line. discriminate ink_line.
    + intros spaces. apply blank in spaces. rewrite spaces in ink. discriminate ink.
Qed.

Lemma Commit_summary_starts_with_ink_witness :
  exists (info : gmap string string) (summary : string),
    rendered (snd (Commit Demo.host Demo.monitor (start_state Demo.w_trailing)))
    = [{| Success := true; Message := VStringMap info |}]
    /\ info !! "message" = Some summary
    /\ (summary = EmptyString \/ is_ink (head_byte summary) = true)
    /\ (summary = EmptyString <-> all_space Demo.trailing_space_message = true).
Proof.
  exact (Commit_summary_starts_with_ink Demo.host Demo.monitor
           (start_state Demo.w_trailing)
           tt {| Plumbing.Name := "HEAD"; Plumbing.Target := Demo.hash1 |}
           (Demo.commit_with Demo.trailing_space_message)
           eq_refl eq_refl eq_refl eq_refl).
Defined.

(** X8. For an ASCII commit message that starts with ink and whose
    first line ends in ink (the usual "subject, blank line, body"),
    the summary Commit reports is the first line of the message as it
    stands, which is also that line with surrounding white space
    trimmed. *)
Theorem Commit_summary_of_tidy_message {World Repository Time}
    (host : Host World Repository Time) (m : Monitor) (st : State World)
    (repo : Repository) (head : Plumbing.Reference) (commit : Object.Commit Time) :
  git_PlainOpen host (GitDir (Conf m)) (world st) = inl repo ->
  git_Head host repo (world st) = inl head ->
  git_CommitObject host repo (Plumbing.Target head) (world st) = inl commit ->
  Strings.isASCII (Object.Message commit) = true ->
  is_ink (head_byte (Object.Message commit)) = true ->
  is_ink (last_byte (first_line (Object.Message commit))) = true ->
  exists info : gmap string string,
    rendered (snd (Commit host m st))
    = (rendered st ++ [{| Success := true; Message := VStringMap info |}])%list
    /\ info !! "message" = Some (first_line (Object.Message commit))
    /\ spec_summary (unicode_trim host) (Object.Message commit)
       = first_line (Object.Message commit).
Proof.
  intros opened resolved loaded plain starts ends.
  exists (commit_info host commit). split; [| split].
  - rewrite Commit_run. cbv zeta. rewrite opened, resolved, loaded. reflexivity.
  - unfold commit_info. rewrite lookup_insert_eq. f_equal.
    rewrite (TrimSpace_ascii _ _ plain), (trim_left_ink _ plain starts).
    apply first_line_trim_right; assumption.
  - unfold spec_summary.
    pose proof (first_line_ascii _ plain) as plain_line.
    rewrite (TrimSpace_ascii _ _ plain_line).
    rewrite trim_left_ink; [apply trim_right_ink; assumption | exact plain_line |].
    rewrite first_line_head; assumption.
Qed.

Lemma Commit_summary_of_tidy_message_witness :
  exists info : gmap string string,
    rendered (snd (Commit Demo.host Demo.monitor (start_state Demo.w0)))
    = [{| Success := true; Message := VStringMap info |}]
    /\ info !! "message" = Some "Fix bug"
    /\ spec_summary (fun s => s) ("Fix bug" ++ LF ++ LF ++ "Longer body text") = "Fix bug".
Proof.
  exact (Commit_summary_of_tidy_message Demo.host Demo.monitor (start_state Demo.w0)
           tt {| Plumbing.Name := "HEAD"; Plumbing.Target := Demo.hash1 |}
           (Demo.commit_with ("Fix bug" ++ LF ++ LF ++ "Longer body text"))
           eq_refl eq_refl eq_refl eq_refl eq_refl eq_refl).
Defined.

(** ** The printed hash *)

Lemma DecodeString_EncodeToString (src : list Byte.byte) :
  DecodeString (Hex.EncodeToString src) = Some src.
Proof.
  induction src as [|v src IH]; [reflexivity|].
  cbn [Hex.EncodeToString DecodeString]. rewrite IH.
  destruct v; reflexivity.
Qed.

(** X9. The [sha] Commit reports identifies the commit: decoding the
    printed hash gives back its 20 bytes, so two hashes that print
    alike are the same hash. *)
Theorem sha_identifies_hash (h1 h2 : Plumbing.Hash) :
  DecodeString (Plumbing.String_ h1) = Some (Plumbing.bytes h1)
  /\ (Plumbing.String_ h1 = Plumbing.String_ h2 <-> h1 = h2).
Proof.
  split; [apply DecodeString_EncodeToString|].
  split; [| intros ->; reflexivity].
  intros same. apply (f_equal DecodeString) in same.
  unfold Plumbing.String_ in same. rewrite !DecodeString_EncodeToString in same.
  injection same as same_bytes.
  destruct h1 as [b1 s1], h2 as [b2 s2]. cbn in same_bytes. subst b2.
  f_equal. apply proof_irrel.
Qed.

Lemma sha_identifies_hash_witness :
  DecodeString "9f86d081884c7d659a2feaa0c55ad015a3bf4f1b" = Some (Plumbing.bytes Demo.hash1).
Proof. exact (proj1 (sha_identifies_hash Demo.hash1 Demo.hash1)). Defined.

(** * The router *)

(** The table of [main], read as a decision on the method and the
    path. *)
Lemma FindRoute_table (method path : string) :
  FindRoute method path
  = if negb (existsb (String.eqb method) methodMap) then MethodNotAllowed
    else if String.eqb path "/metrics" then Routed Metrics
    else if String.eqb path "/start" then
      if String.eqb method "POST" then Routed (Operation (fun _ => OpStart))
      else MethodNotAllowed
    else if String.eqb path "/stop" then
      if String.eqb method "POST" then Routed (Operation (fun _ => OpStop))
      else MethodNotAllowed
    else if String.eqb path "/update" then
      if String.eqb method "POST" then Routed (Operation (fun _ => OpUpdate))
      else MethodNotAllowed
    else if String.eqb path "/restoresave" then
      if String.eqb method "POST" then Routed (Operation OpRestoreSave)
      else MethodNotAllowed
    else if String.eqb path "/commit" then
      if String.eqb method "GET" then Routed (Operation (fun _ => OpCommit))
      else MethodNotAllowed
    else if String.eqb path "/is_running" then
      if String.eqb method "GET" then Routed (Operation (fun _ => OpIsRunning))
      else MethodNotAllowed
    else NotFound.
Proof.
  unfold FindRoute. destruct (negb _); [reflexivity|].
  cbn [routes List.filter route_pattern].
  repeat match goal with
    | |- context [String.eqb path ?pattern] =>
        destruct (String.eqb_spec path pattern) as [-> |];
        [cbn;
         try match goal with
           | |- context [String.eqb method ?bound] => destruct (String.eqb method bound)
           end;
         reflexivity|]
    end.
  reflexivity.
Qed.


(** What one handler leaves behind, for the router: the calls and
    envelopes it adds; a panic comes from IsRunning on an inspection
    without state and adds no envelope; an operation that runs no
    script leaves the world alone and never calls the runner. *)
Lemma handle_summary {World Repository Time}
    (host : Host World Repository Time) (m : Monitor) (op : operation)
    (st : State World) :
  exists (cs : list Call) (vs : list Response),
    calls (snd (handle host m op st)) = (calls st ++ cs)%list
    /\ rendered (snd (handle host m op st)) = (rendered st ++ vs)%list
    /\ match fst (handle host m op st) with
       | Returned _ => length vs = 1
       | Panicked _ =>
           vs = [] /\ op = OpIsRunning
           /\ state_readable
                (docker_ContainerInspect host (Container (Conf m)) (world st)) = false
       end
    /\ (runs_script op = false ->
        world (snd (handle host m op st)) = world st
        /\ forallb (fun c => negb (is_runner_call c)) cs = true).
Proof.
  destruct op as [| | | r | |]; cbn [handle runs_script];
    [ change (Start host m st) with (lifecycle_handler DoStart host m st);
      rewrite lifecycle_run
    | change (Stop host m st) with (lifecycle_handler DoStop host m st);
      rewrite lifecycle_run
    | change (Update host m st) with (lifecycle_handler DoUpdate host m st);
      rewrite lifecycle_run
    | rewrite RestoreSave_run
    | rewrite Commit_run
    | rewrite IsRunning_run ];
    cbv zeta.
  1-3: destruct (exec_Run host _ (world st)) as [[e|] w'];
       eexists [_], [_]; repeat split; discriminate.
  - destruct (_ || _).
    + eexists [], [_]. rewrite app_nil_r. repeat split; discriminate.
    + destruct (exec_CombinedOutput host _ (world st)) as [[out [e|]] w'];
        eexists [_], [_]; repeat split; discriminate.
  - destruct (git_PlainOpen host _ (world st)) as [repo|e];
      [| eexists [_], [_]; repeat split].
    destruct (git_Head host repo (world st)) as [head|e];
      [| eexists [_; _], [_]; repeat split].
    destruct (git_CommitObject host repo _ (world st)) as [commit|e];
      eexists [_; _; _], [_]; repeat split.
  - destruct (state_readable _) eqn:readable.
    + eexists [_], [_]. repeat split.
    + eexists [_], []. cbn [fst snd calls rendered world].
      rewrite app_nil_r. repeat split.
Qed.

(** X10. The routes of [main]: a request reaches a handler of the
    monitor exactly through one of six pairs of method and path; the
    four script operations are bound to POST only, the two read
    operations to GET only, and only RestoreSave reads the request. *)
Theorem FindRoute_operation (method path : string) (op : Request -> operation) :
  FindRoute method path = Routed (Operation op)
  <-> (method = "POST" /\ path = "/start" /\ op = (fun _ => OpStart))
      \/ (method = "POST" /\ path = "/stop" /\ op = (fun _ => OpStop))
      \/ (method = "POST" /\ path = "/update" /\ op = (fun _ => OpUpdate))
      \/ (method = "POST" /\ path = "/restoresave" /\ op = OpRestoreSave)
      \/ (method = "GET" /\ path = "/commit" /\ op = (fun _ => OpCommit))
      \/ (method = "GET" /\ path = "/is_running" /\ op = (fun _ => OpIsRunning)).
Proof.
  split.
  - rewrite FindRoute_table. destruct (negb _); [discriminate|].
    repeat match goal with
      | |- context [String.eqb path ?pattern] =>
          destruct (String.eqb_spec path pattern) as [-> |]
      end;
      try discriminate;
      match goal with
      | |- context [String.eqb method ?bound] =>
          destruct (String.eqb_spec method bound) as [-> |]; [| discriminate]
      end;
      intros found; injection found as <-; tauto.
  - intros [(-> & -> & ->) | [(-> & -> & ->) | [(-> & -> & ->) |
           [(-> & -> & ->) | [(-> & -> & ->) | (-> & -> & ->)]]]]]; reflexivity.
Qed.

Lemma FindRoute_operation_witness :
  FindRoute "POST" "/restoresave" = Routed (Operation OpRestoreSave)
  /\ FindRoute "GET" "/commit" = Routed (Operation (fun _ => OpCommit)).
Proof.
  split.
  - apply (proj2 (FindRoute_operation "POST" "/restoresave" OpRestoreSave)).
    right. right. right. left. repeat split.
  - apply (proj2 (FindRoute_operation "GET" "/commit" (fun _ => OpCommit))).
    right. right. right. right. left. repeat split.
Defined.

Section Serving.

Context {World Repository Time : Type}.
Variable host : Host World Repository Time.
Variable Sum256 : string -> string.
Variable m : Monitor.

(** A routed operation that runs a script was asked for by a POST to a
    script pattern. *)
Lemma routed_script (req : HTTPRequest) (op : Request -> operation) :
  FindRoute (Method req) (Path req) = Routed (Operation op) ->
  script_request req = runs_script (op (Values req)).
Proof.
  unfold script_request. rewrite FindRoute_table.
  generalize (Method req) (Path req) (Values req). intros method path r.
  destruct (negb _); [discriminate|].
  repeat match goal with
    | |- context [String.eqb path ?pattern] =>
        destruct (String.eqb_spec path pattern) as [-> |]
    end;
    try discriminate;
    destruct (String.eqb method "POST"), (String.eqb method "GET");
    try discriminate;
    intros found; injection found as <-; reflexivity.
Qed.

(** A request without the right credentials, or one that is no POST to
    a script pattern, leaves the world alone and reaches no runner. *)
Lemma ServeHTTP_harmless (req : HTTPRequest) (w : World) :
  authenticate Sum256 (Password (Conf m)) req = false \/ script_request req = false ->
  world (snd (ServeHTTP host Sum256 m req w)) = w
  /\ forallb (fun c => negb (is_runner_call c))
       (calls (snd (ServeHTTP host Sum256 m req w))) = true.
Proof.
  intros harmless. unfold ServeHTTP.
  destruct (authenticate Sum256 (Password (Conf m)) req) eqn:known;
    cbn [negb]; [| split; reflexivity].
  destruct harmless as [|no_script]; [discriminate|].
  destruct (FindRoute (Method req) (Path req)) as [[|op]| |] eqn:found;
    try (split; reflexivity).
  rewrite (routed_script req op found) in no_script.
  destruct (handle_summary host m (op (Values req)) (start_state w))
    as (cs & vs & called & _ & _ & quiet).
  destruct (quiet no_script) as [same_world no_runner].
  cbn [calls start_state app] in called.
  destruct (handle host m (op (Values req)) (start_state w)) as [o st].
  cbn [fst snd] in *.
  assert (world st = w /\ forallb (fun c => negb (is_runner_call c)) (calls st) = true)
    as done by (rewrite called; split; assumption).
  destruct o, (rendered st); exact done.
Qed.

End Serving.

(** X11. Only a POST to one of the four script patterns by a client
    that passes the basic authentication can change the world:
    serving, one after another, any requests that each lack the
    credentials or are no such POST leaves the world as it was and
    makes no call to the runner. *)
Theorem serve_all_harmless {World Repository Time}
    (host : Host World Repository Time) (Sum256 : string -> string) (m : Monitor)
    (reqs : list HTTPRequest) (w : World) :
  Forall (fun req => authenticate Sum256 (Password (Conf m)) req = false
                     \/ script_request req = false) reqs ->
  snd (serve_all host Sum256 m reqs w) = w
  /\ forallb (fun c => negb (is_runner_call c))
       (snd (fst (serve_all host Sum256 m reqs w))) = true.
Proof.
  intros harmless. revert w.
  induction harmless as [|req reqs first rest IH]; intros w; [split; reflexivity|].
  cbn [serve_all].
  destruct (ServeHTTP_harmless host Sum256 m req w first) as [same_world no_runner].
  destruct (ServeHTTP host Sum256 m req w) as [answer st]. cbn [snd] in *.
  specialize (IH (world st)).
  destruct (serve_all host Sum256 m reqs (world st)) as [[answers cs] w'].
  cbn [fst snd] in *. destruct IH as [-> quiet].
  split; [exact same_world|].
  rewrite forallb_app, no_runner, quiet. reflexivity.
Qed.

Lemma serve_all_harmless_witness :
  let reqs := [DemoWeb.request "POST" "/start" None "" "";
               DemoWeb.request "POST" "/restoresave" (Some "guess") "Alice" "2019-10-28";
               DemoWeb.request "GET" "/start" (Some "secret") "" "";
               DemoWeb.request "GET" "/commit" (Some "secret") "" "";
               DemoWeb.request "DELETE" "/is_running" (Some "secret") "" ""] in
  snd (serve_all Demo.host DemoWeb.digest Demo.monitor reqs Demo.w0) = Demo.w0
  /\ forallb (fun c => negb (is_runner_call c))
       (snd (fst (serve_all Demo.host DemoWeb.digest Demo.monitor reqs Demo.w0))) = true.
Proof.
  cbv zeta.
  apply (serve_all_harmless Demo.host DemoWeb.digest Demo.monitor).
  repeat (apply List.Forall_cons;
          [solve [left; vm_compute; reflexivity | right; vm_compute; reflexivity] |]).
  apply List.Forall_nil.
Defined.

(** The IsRunning handler is reached by GET /is_running only. *)
Lemma routed_IsRunning (req : HTTPRequest) (op : Request -> operation) :
  FindRoute (Method req) (Path req) = Routed (Operation op) ->
  op (Values req) = OpIsRunning ->
  Method req = "GET" /\ Path req = "/is_running".
Proof.
  rewrite FindRoute_table.
  generalize (Method req) (Path req) (Values req). intros method path r.
  destruct (negb _); [discriminate|].
  repeat match goal with
    | |- context [String.eqb path ?pattern] =>
        destruct (String.eqb_spec path pattern) as [-> |]
    end;
    try discriminate;
    match goal with
    | |- context [String.eqb method ?bound] =>
        destruct (String.eqb_spec method bound) as [-> |]; [| discriminate]
    end;
    intros found; injection found as <-; intros reached;
    try discriminate reached.
  split; reflexivity.
Qed.

(** X12. Failure is signalled through the envelope, not the status:
    whenever a handler renders, the reply carries exactly one envelope
    with status 200, whatever its [success].  A reply without
    envelope is a 401 (the credentials did not pass), a 404 or 405 (no
    handler ran: no call was made), or a 500, which only arises when
    the request was a GET of /is_running and IsRunning panicked on an
    inspection without state.  The metrics page goes to authenticated
    clients only. *)
Theorem ServeHTTP_status {World Repository Time}
    (host : Host World Repository Time) (Sum256 : string -> string) (m : Monitor)
    (req : HTTPRequest) (w : World) :
  match fst (ServeHTTP host Sum256 m req w) with
  | MetricsPage => authenticate Sum256 (Password (Conf m)) req = true
  | Answered status body =>
      (status = 200 /\ exists v, body = [v])
      \/ (status = 401 /\ body = []
          /\ authenticate Sum256 (Password (Conf m)) req = false
          /\ calls (snd (ServeHTTP host Sum256 m req w)) = [])
      \/ ((status = 404 \/ status = 405) /\ body = []
          /\ calls (snd (ServeHTTP host Sum256 m req w)) = [])
      \/ (status = 500 /\ body = []
          /\ Method req = "GET" /\ Path req = "/is_running"
          /\ FindRoute (Method req) (Path req) = Routed (Operation (fun _ => OpIsRunning))
          /\ fst (IsRunning host m (start_state w)) = Panicked nil_dereference
          /\ state_readable
               (docker_ContainerInspect host (Container (Conf m)) w) = false)
  end.
Proof.
  unfold ServeHTTP.
  destruct (authenticate Sum256 (Password (Conf m)) req) eqn:known; cbn [negb].
  2: { cbn. right. left. repeat split. }
  destruct (FindRoute (Method req) (Path req)) as [[|op]| |] eqn:found.
  - reflexivity.
  - destruct (handle_summary host m (op (Values req)) (start_state w))
      as (cs & vs & _ & wrote & ended & _).
    cbn [rendered start_state app] in wrote.
    destruct (handle host m (op (Values req)) (start_state w)) as [o st] eqn:ran.
    cbn [fst snd] in *. rewrite wrote.
    destruct o as [[]|reason].
    + destruct vs as [|v [|v' vs]]; try discriminate ended.
      cbn. left. split; [reflexivity | exists v; reflexivity].
    + destruct ended as (-> & reached & unreadable).
      destruct (routed_IsRunning req op found reached) as [is_get is_path].
      assert (op = fun _ => OpIsRunning) as ->.
      { rewrite is_get, is_path in found.
        change (FindRoute "GET" "/is_running")
          with (Routed (Operation (fun _ => OpIsRunning))) in found.
        injection found as <-. reflexivity. }
      cbn. right. right. right.
      split; [reflexivity|]. split; [reflexivity|].
      split; [exact is_get|]. split; [exact is_path|].
      cbn [world start_state] in unreadable.
      split; [| split; [| exact unreadable]].
      * reflexivity.
      * rewrite IsRunning_run. cbv zeta. cbn [world start_state].
        rewrite unreadable. reflexivity.
  - cbn. right. right. left. split; [right; reflexivity | split; reflexivity].
  - cbn. right. right. left. split; [left; reflexivity | split; reflexivity].
Qed.

(** * The start of the process *)

(** X13. How [main] ends.  A failure to read the file, to parse it
    or to make the Docker client ends the process with status 1 after
    one line that names that very step with its error, and "starting"
    is not printed; the process exits through [os.Exit] in these three
    cases only, and with no other status.  When all three succeed
    [main] prints "starting" and listens on [":3889"], with the parsed
    configuration and asking clients for its password; an error of the
    listener is dropped: nothing more is printed and the process ends
    with status 0. *)
Theorem main_endings {Client} (os : OS Client) :
  (forall e,
      ioutil_ReadFile os "config.json" = inr e ->
      main os = {| stdout := ["config read error: " ++ Error e ++ LF]; ended := Exit 1 |})
  /\ (forall file e,
        ioutil_ReadFile os "config.json" = inl file ->
        json_Unmarshal os file = inr e ->
        main os
        = {| stdout := ["config parse error: " ++ Error e ++ LF]; ended := Exit 1 |})
  /\ (forall file config e,
        ioutil_ReadFile os "config.json" = inl file ->
        json_Unmarshal os file = inl config ->
        docker_NewEnvClient os = inr e ->
        main os
        = {| stdout := ["docker client failed: " ++ Error e ++ LF]; ended := Exit 1 |})
  /\ (forall file config client,
        ioutil_ReadFile os "config.json" = inl file ->
        json_Unmarshal os file = inl config ->
        docker_NewEnvClient os = inl client ->
        main os
        = {| stdout := ["starting" ++ LF];
             ended := match http_ListenAndServe os ":3889" with
                      | None => Serving ":3889" {| Conf := config |} (Password config)
                      | Some _ => Returns
                      end |})
  /\ (forall code,
        ended (main os) = Exit code ->
        code = 1
        /\ ((exists e, ioutil_ReadFile os "config.json" = inr e)
            \/ (exists file e,
                  ioutil_ReadFile os "config.json" = inl file
                  /\ json_Unmarshal os file = inr e)
            \/ (exists e, docker_NewEnvClient os = inr e))).
Proof.
  split; [| split; [| split; [| split]]].
  - intros e failed. unfold main. rewrite failed. reflexivity.
  - intros file e read failed. unfold main. rewrite read, failed. reflexivity.
  - intros file config e read parsed failed. unfold main.
    rewrite read, parsed, failed. reflexivity.
  - intros file config client read parsed made. unfold main.
    rewrite read, parsed, made.
    destruct (http_ListenAndServe os ":3889"); reflexivity.
  - intros code. unfold main.
    destruct (ioutil_ReadFile os "config.json") as [file|e].
    2: { intros exited. injection exited as <-. split; [reflexivity|].
         left. exists e. reflexivity. }
    destruct (json_Unmarshal os file) as [config|e] eqn:parsed.
    2: { intros exited. injection exited as <-. split; [reflexivity|].
         right. left. exists file, e. split; [reflexivity | exact parsed]. }
    destruct (docker_NewEnvClient os) as [client|e].
    2: { intros exited. injection exited as <-. split; [reflexivity|].
         right. right. exists e. reflexivity. }
    destruct (http_ListenAndServe os ":3889"); discriminate.
Qed.

Lemma main_endings_witness :
  main DemoWeb.os_bad_config
  = {| stdout := ["config parse error: unexpected end of JSON input" ++ LF];
       ended := Exit 1 |}
  /\ main DemoWeb.os_no_docker
     = {| stdout := ["docker client failed: unable to parse docker host" ++ LF];
          ended := Exit 1 |}
  /\ main DemoWeb.os_port_taken = {| stdout := ["starting" ++ LF]; ended := Returns |}
  /\ main DemoWeb.os
     = {| stdout := ["starting" ++ LF];
          ended := Serving ":3889" Demo.monitor "secret" |}.
Proof.
  split; [| split; [| split]].
  - exact (proj1 (proj2 (main_endings DemoWeb.os_bad_config))
             "{...}" {| Error := "unexpected end of JSON input" |} eq_refl eq_refl).
  - exact (proj1 (proj2 (proj2 (main_endings DemoWeb.os_no_docker)))
             "{...}" Demo.conf {| Error := "unable to parse docker host" |}
             eq_refl eq_refl eq_refl).
  - exact (proj1 (proj2 (proj2 (proj2 (main_endings DemoWeb.os_port_taken))))
             "{...}" Demo.conf tt eq_refl eq_refl eq_refl).
  - exact (proj1 (proj2 (proj2 (proj2 (main_endings DemoWeb.os))))
             "{...}" Demo.conf tt eq_refl eq_refl eq_refl).
Defined.
